(** * Leaflet.FreeDraw: the pointer state machine of [src/FreeDraw.js]

    A shallow embedding of the [FreeDraw] class: the options object built by
    the constructor, the per-map state hung on the Leaflet map ([modesKey],
    [cancelKey], the [polygons] WeakMap entry), the closures created by
    [listenForEvents] ([mouseDown], [touchStart], [mouseMove], [mouseUp]) and
    the facade methods ([mode], [cancel], [remove], [size], ...).

    JavaScript objects used as records of options are [gmap string JsValue];
    the set of registered listeners is a [gset]; the ES6 [Set] of LatLng
    objects is an insertion-ordered list keyed by object identity. *)

From Stdlib Require Import ZArith QArith Qcanon Qround List.
From stdpp Require Import base gmap strings list fin_maps.

Local Open Scope Z_scope.

(** ** JavaScript values *)

(** The values that reach this file's code: primitives, and objects by
    reference.  Finite numbers are kept as the rational the literal denotes
    ([0.3] is [3 # 10]); [Infinity] and [NaN] are separate constructors. *)
Inductive JsValue : Type :=
  | VUndefined
  | VNull
  | VBool (b : bool)
  | VNum (q : Q)
  | VInfinity
  | VNaN
  | VStr (s : string)
  | VObj (ref : nat).

(** [typeof v]. *)
Definition typeof (v : JsValue) : string :=
  match v with
  | VUndefined => "undefined"
  | VNull => "object"
  | VBool _ => "boolean"
  | VNum _ | VInfinity | VNaN => "number"
  | VStr _ => "string"
  | VObj _ => "object"
  end.

(** ToBoolean: what [v ? a : b], [v && e] and [!!v] test. *)
Definition truthy (v : JsValue) : bool :=
  match v with
  | VUndefined | VNull | VNaN => false
  | VBool b => b
  | VNum q => negb (Qnum q =? 0)
  | VInfinity => true
  | VStr s => negb (String.eqb s "")
  | VObj _ => true
  end.

(** ToInt32 on an integer: wrap into [-2^31, 2^31). *)
Definition wrap32 (z : Z) : Z := (z + 2 ^ 31) mod 2 ^ 32 - 2 ^ 31.

(** ToInt32: a finite number is truncated towards zero, then wrapped;
    [Infinity], [NaN], [undefined] and [null] give [0].  Strings and objects
    never reach a bitwise operator in this file and are sent to [0] too. *)
Definition toInt32 (v : JsValue) : Z :=
  match v with
  | VNum q => wrap32 (Z.quot (Qnum q) (Z.pos (Qden q)))
  | VBool true => 1
  | _ => 0
  end.

(** [a || b]. *)
Definition js_or (a b : JsValue) : JsValue := if truthy a then a else b.

(** The bitwise operators [a & b] and [a ^ b] on integer-valued numbers. *)
Definition js_and (a b : Z) : Z := Z.land (wrap32 a) (wrap32 b).
Definition js_xor (a b : Z) : Z := Z.lxor (wrap32 a) (wrap32 b).

Definition num (z : Z) : JsValue := VNum (inject_Z z).

(** A plain object used as a bag of properties. *)
Abbreviation Obj := (gmap string JsValue).

(** Property read [o.k]: [undefined] when the property is absent. *)
Definition prop (o : Obj) (k : string) : JsValue := default VUndefined (o !! k).

(** Object spread [{ ...a, ...b }]: the properties of [b] override those of
    [a]. stdpp's union is left-biased. *)
Definition spread (a b : Obj) : Obj := b ∪ a.

(** ** Mode flags (imported from [./helpers/Flags]) *)

(** The flag constants are imported; their values are not part of this file. *)
Class Flags := {
  NONE : Z;
  CREATE : Z;
  EDIT : Z;
  DELETE : Z;
  APPEND : Z;
  EDIT_APPEND : Z;
  ALL : Z
}.

(** Modelled from the spec: [helpers/Flags] is missing; the spec describes the
    exported constants as "bit values forming a combinable set", with [NONE]
    and [ALL] the sentinel combinations.  One bit per mode. *)
Definition bitFlags : Flags := {|
  NONE := 0;
  CREATE := 1;
  EDIT := 2;
  DELETE := 4;
  APPEND := 8;
  EDIT_APPEND := Z.lor 2 8;
  ALL := Z.lor (Z.lor 1 2) (Z.lor 4 8)
|}.

(** ** The options object *)

Section Options.
Context `{Flags}.

(** [defaultOptions], lines 28-39. *)
Definition defaultOptions : Obj :=
  list_to_map [
    ("mode", num ALL);
    ("smoothFactor", VNum (3 # 10));
    ("elbowDistance", num 10);
    ("simplifyFactor", VNum (11 # 10));
    ("mergePolygons", VBool true);
    ("concavePolygon", VBool true);
    ("maximumPolygons", VInfinity);
    ("notifyAfterEditExit", VBool false);
    ("leaveModeAfterCreate", VBool false);
    ("strokeWidth", num 2)
  ].

(** What the caller hands to [new FreeDraw(options)]. *)
Inductive OptionsArg : Type :=
  | ArgOmitted                (* no argument, or [undefined] *)
  | ArgNull                   (* [null]: spreads to nothing *)
  | ArgObj (o : Obj).

(** [constructor(options = defaultOptions)]: the value of [this.options],
    [{ ...defaultOptions, ...options }]. *)
Definition constructor (options : OptionsArg) : Obj :=
  let options :=
    match options with
    | ArgOmitted => defaultOptions
    | ArgNull => ∅
    | ArgObj o => o
    end in
  spread defaultOptions options.
End Options.

(** ** Points, events and the host map *)

(** [L.Point]: a pixel position in the map container. *)
Record Point := mkPoint { px : Z; py : Z }.

(** The value of an [L.LatLng]. *)
Record LatLng := mkLatLng { lat : Qc; lng : Qc }.

#[global] Instance LatLng_eq_dec : EqDecision LatLng.
Proof. solve_decision. Defined.

(** An [L.LatLng] object on the heap: its identity and its value.  The ES6
    [Set] compares objects by identity. *)
Record LatLngObj := mkLatLngObj { ll_ref : nat; ll_pos : LatLng }.

(** The [clientX]/[clientY] pair of a mouse event or of a touch; [None] is
    [undefined]. *)
Record ClientPos := mkClientPos { clientX : option Z; clientY : option Z }.

(** The fields the handlers read from the event they are handed: a DOM event
    carries [client] and [touches], a Leaflet map event carries [latlng] and
    [originalEvent]; [cancel] passes the empty object. *)
Record Event := mkEvent {
  type : option string;
  client : ClientPos;
  touches : option (list ClientPos);
  latlng : option LatLng;
  originalEvent : option (ClientPos * option (list ClientPos))
}.

Definition emptyEvent : Event :=
  mkEvent None (mkClientPos None None) None None None.

(** The Leaflet map the layer sits on: the conversions the handlers call, and
    whether [document] has a [body]. *)
Class Host := {
  mouseEventToContainerPoint : ClientPos -> Point;
  containerPointToLatLng : Point -> LatLng;
  latLngToContainerPoint : LatLng -> Point;
  bodyInDocument : bool
}.

(** ** Listeners *)

Inductive Target := OnMap | OnContainer | OnBody.
Inductive Handler := HMouseDown | HTouchStart | HMouseMove | HMouseUp.

#[global] Instance Target_eq_dec : EqDecision Target.
Proof. solve_decision. Defined.

#[global] Instance Handler_eq_dec : EqDecision Handler.
Proof. solve_decision. Defined.

#[global] Instance Target_countable : Countable Target.
Proof.
  refine (inj_countable'
    (fun t => match t with OnMap => 0 | OnContainer => 1 | OnBody => 2 end)%nat
    (fun n => match n with 0 => OnMap | 1 => OnContainer | _ => OnBody end)%nat _).
  by intros [].
Defined.

#[global] Instance Handler_countable : Countable Handler.
Proof.
  refine (inj_countable'
    (fun h => match h with
              | HMouseDown => 0 | HTouchStart => 1 | HMouseMove => 2 | HMouseUp => 3
              end)%nat
    (fun n => match n with
              | 0 => HMouseDown | 1 => HTouchStart | 2 => HMouseMove | _ => HMouseUp
              end)%nat _).
  by intros [].
Defined.

(** A registration: where, for which event name, which closure.
    [map.on('mouseup', mouseUp)] is [(OnMap, "mouseup", HMouseUp)]. *)
Abbreviation Listener := (Target * string * Handler)%type.

(** ** The state hung on the map *)

(** What [map[cancelKey]] holds: [() => {}] or [() => mouseUp({}, false)]. *)
Inductive CancelFn := CancelNoop | CancelMouseUp.

(** A [path] appended to the SVG layer by the line iterator. *)
Record Segment := mkSegment {
  seg_from : Point;
  seg_to : Point;
  seg_class : JsValue;
  seg_fill : JsValue;
  seg_fill_opacity : JsValue;
  seg_stroke : JsValue;
  seg_stroke_width : JsValue
}.

(** The closure returned by [createPath]: its [lastPoint] and the
    [strokeWidth] it was created with. *)
Record LineIterator := mkLineIterator { lastPoint : Point; strokeWidth : JsValue }.

(** A polygon of the store: an object (identity) owning a boundary. *)
Record Polygon := mkPolygon { poly_ref : nat; boundary : list LatLng }.

(** A change notification: its reason tag and the polygon list it carries. *)
Record Notification := mkNotification {
  reason : string;
  payload : option (list Polygon)
}.

Record MapState := mkMapState {
  modes : Z;                          (* map[modesKey] *)
  cancelFn : option CancelFn;         (* map[cancelKey]; None once deleted *)
  notifyDeferred : option string;     (* map[notifyDeferredKey]; None is () => {} *)
  store : option (list Polygon);      (* polygons.get(map) *)
  listeners : gset Listener;          (* registrations on map, container, body *)
  canvas : list Segment;              (* children of the svg element *)
  svgInDom : bool;                    (* the svg element is attached *)
  latLngs : list LatLngObj;           (* the closure variable latLngs, a Set *)
  lineIterator : option LineIterator; (* the closure variable lineIterator *)
  notifications : list Notification;  (* notifications fired so far, oldest first *)
  nextRef : nat;                      (* next fresh object identity *)
  onMap : bool;                       (* the layer is on the Leaflet map *)
  instanceOnMap : bool;               (* map[instanceKey] is set *)
  simplifyOnMap : bool                (* map.simplifyPolygon is set *)
}.

Definition set_modes (v : Z) (m : MapState) : MapState :=
  mkMapState v (cancelFn m) (notifyDeferred m) (store m) (listeners m) (canvas m)
    (svgInDom m) (latLngs m) (lineIterator m) (notifications m) (nextRef m) (onMap m)
    (instanceOnMap m) (simplifyOnMap m).
Definition set_cancelFn (v : option CancelFn) (m : MapState) : MapState :=
  mkMapState (modes m) v (notifyDeferred m) (store m) (listeners m) (canvas m)
    (svgInDom m) (latLngs m) (lineIterator m) (notifications m) (nextRef m) (onMap m)
    (instanceOnMap m) (simplifyOnMap m).
Definition set_notifyDeferred (v : option string) (m : MapState) : MapState :=
  mkMapState (modes m) (cancelFn m) v (store m) (listeners m) (canvas m)
    (svgInDom m) (latLngs m) (lineIterator m) (notifications m) (nextRef m) (onMap m)
    (instanceOnMap m) (simplifyOnMap m).
Definition set_store (v : option (list Polygon)) (m : MapState) : MapState :=
  mkMapState (modes m) (cancelFn m) (notifyDeferred m) v (listeners m) (canvas m)
    (svgInDom m) (latLngs m) (lineIterator m) (notifications m) (nextRef m) (onMap m)
    (instanceOnMap m) (simplifyOnMap m).
Definition set_listeners (v : gset Listener) (m : MapState) : MapState :=
  mkMapState (modes m) (cancelFn m) (notifyDeferred m) (store m) v (canvas m)
    (svgInDom m) (latLngs m) (lineIterator m) (notifications m) (nextRef m) (onMap m)
    (instanceOnMap m) (simplifyOnMap m).
Definition set_canvas (v : list Segment) (m : MapState) : MapState :=
  mkMapState (modes m) (cancelFn m) (notifyDeferred m) (store m) (listeners m) v
    (svgInDom m) (latLngs m) (lineIterator m) (notifications m) (nextRef m) (onMap m)
    (instanceOnMap m) (simplifyOnMap m).
Definition set_svgInDom (v : bool) (m : MapState) : MapState :=
  mkMapState (modes m) (cancelFn m) (notifyDeferred m) (store m) (listeners m) (canvas m)
    v (latLngs m) (lineIterator m) (notifications m) (nextRef m) (onMap m)
    (instanceOnMap m) (simplifyOnMap m).
Definition set_latLngs (v : list LatLngObj) (m : MapState) : MapState :=
  mkMapState (modes m) (cancelFn m) (notifyDeferred m) (store m) (listeners m) (canvas m)
    (svgInDom m) v (lineIterator m) (notifications m) (nextRef m) (onMap m)
    (instanceOnMap m) (simplifyOnMap m).
Definition set_lineIterator (v : option LineIterator) (m : MapState) : MapState :=
  mkMapState (modes m) (cancelFn m) (notifyDeferred m) (store m) (listeners m) (canvas m)
    (svgInDom m) (latLngs m) v (notifications m) (nextRef m) (onMap m)
    (instanceOnMap m) (simplifyOnMap m).
Definition set_notifications (v : list Notification) (m : MapState) : MapState :=
  mkMapState (modes m) (cancelFn m) (notifyDeferred m) (store m) (listeners m) (canvas m)
    (svgInDom m) (latLngs m) (lineIterator m) v (nextRef m) (onMap m)
    (instanceOnMap m) (simplifyOnMap m).
Definition set_nextRef (v : nat) (m : MapState) : MapState :=
  mkMapState (modes m) (cancelFn m) (notifyDeferred m) (store m) (listeners m) (canvas m)
    (svgInDom m) (latLngs m) (lineIterator m) (notifications m) v (onMap m)
    (instanceOnMap m) (simplifyOnMap m).
Definition set_onMap (v : bool) (m : MapState) : MapState :=
  mkMapState (modes m) (cancelFn m) (notifyDeferred m) (store m) (listeners m) (canvas m)
    (svgInDom m) (latLngs m) (lineIterator m) (notifications m) (nextRef m) v
    (instanceOnMap m) (simplifyOnMap m).
Definition set_instanceOnMap (v : bool) (m : MapState) : MapState :=
  mkMapState (modes m) (cancelFn m) (notifyDeferred m) (store m) (listeners m) (canvas m)
    (svgInDom m) (latLngs m) (lineIterator m) (notifications m) (nextRef m) (onMap m)
    v (simplifyOnMap m).
Definition set_simplifyOnMap (v : bool) (m : MapState) : MapState :=
  mkMapState (modes m) (cancelFn m) (notifyDeferred m) (store m) (listeners m) (canvas m)
    (svgInDom m) (latLngs m) (lineIterator m) (notifications m) (nextRef m) (onMap m)
    (instanceOnMap m) v.

(** [target.on(name, handler)] and [target.off(name, handler)]: registering
    twice keeps one registration, removing an absent one does nothing. *)
Definition on (l : Listener) (m : MapState) : MapState :=
  set_listeners ({[ l ]} ∪ listeners m) m.
Definition off (l : Listener) (m : MapState) : MapState :=
  set_listeners (listeners m ∖ {[ l ]}) m.

(** [Set.prototype.add]: an object already in the set (same identity) is not
    added again; a new one goes last. *)
Definition set_add (o : LatLngObj) (s : list LatLngObj) : list LatLngObj :=
  if decide (ll_ref o ∈ ll_ref <$> s) then s else s ++ [o].

(** ** The helpers imported from [./helpers] *)

(** The geometric routines the polygon builder is handed: the pluggable
    simplification routine ([map.simplifyPolygon]), a convex hull, the overlap
    test and the union of two boundaries. *)
Class Geometry := {
  simplifyPolygon : JsValue -> list LatLng -> list LatLng;
  convexHull : list LatLng -> list LatLng;
  overlaps : list LatLng -> list LatLng -> bool;
  unionOf : list LatLng -> list LatLng -> list LatLng
}.

(** What a facade method gives back: a value, or the [TypeError] JavaScript
    throws on reading a property of [undefined] or calling a non-function. *)
Inductive Result (A : Type) : Type :=
  | Ok (a : A)
  | TypeError.
Arguments Ok {A} a.
Arguments TypeError {A}.

(** The [FreeDraw] instance: [this.options] and [this.map] ([None] until
    [onAdd] has run). *)
Record FreeDraw := mkFreeDraw { options : Obj; fd_map : option MapState }.

Section Engine.
Context `{Flags} `{Host} `{Geometry}.

(** Modelled from the spec: [updateFor] of [helpers/Layer] is missing.  "A
    change notification emitted after every create/remove/clear/edit-exit
    with a reason tag, carrying the current full Polygon list."  The payload
    logged is what [polygons.get(map)] gives: [None] on a map whose store
    entry is deleted, where there is no list to carry. *)
Definition updateFor (m : MapState) (eventType : string) : MapState :=
  set_notifications (notifications m ++ [mkNotification eventType (store m)]) m.

(** Modelled from the spec: steps 1-3 of the Polygon Builder (missing
    [createFor] of [helpers/Polygon]): simplify, take the convex hull when
    [concavePolygon] is off; the ring is closed implicitly. *)
Definition usableVertices (latLngs : list LatLng) (o : Obj) : list LatLng :=
  let simplified := simplifyPolygon (prop o "simplifyFactor") latLngs in
  if truthy (prop o "concavePolygon") then simplified else convexHull simplified.

(** [n] polygons are more than the cap allows; an infinite or non-numeric
    cap allows any number. *)
Definition overCap (n : nat) (cap : JsValue) : bool :=
  match cap with
  | VNum q => negb (Qle_bool (inject_Z (Z.of_nat n)) q)
  | _ => false
  end.

(** Modelled from the spec: [createFor] of [helpers/Polygon] is missing; this
    is the Polygon Builder of section 4.3.  Step 4: fewer than 3 distinct
    vertices is [InsufficientPoints], no polygon.  Step 5: with
    [mergePolygons], the overlapping polygons of the store are unioned with
    the new boundary and replaced by it.  Step 6: merge first, then the cap
    check, the newest polygon being rejected.  Step 7: insert. *)
Definition createFor (m : MapState) (latLngs : list LatLng) (o : Obj) : MapState :=
  let ring := usableVertices latLngs o in
  if (length (remove_dups ring) <? 3)%nat then m
  else
    match store m with
    | None => m
    | Some ps =>
      let hit := fun p : Polygon => overlaps ring (boundary p) in
      let merging := truthy (prop o "mergePolygons") in
      let ring' :=
        if merging then foldl unionOf ring (boundary <$> filter (fun p => hit p = true) ps)
        else ring in
      let kept := if merging then filter (fun p => hit p = false) ps else ps in
      if overCap (S (length kept)) (prop o "maximumPolygons") then m
      else
        set_store (Some (kept ++ [mkPolygon (nextRef m) ring']))
          (set_nextRef (S (nextRef m)) m)
    end.

(** Modelled from the spec: [removeFor] of [helpers/Polygon] is missing.  It
    "deletes one Polygon from the Store"; removing an absent polygon is a
    no-op. *)
Definition removeFor (m : MapState) (polygon : JsValue) : MapState :=
  match polygon, store m with
  | VObj r, Some ps => set_store (Some (filter (fun p => poly_ref p ≠ r) ps)) m
  | _, _ => m
  end.

(** Modelled from the spec: [clearFor] of [helpers/Polygon] is missing.  It
    "empties the Store entirely". *)
Definition clearFor (m : MapState) : MapState :=
  match store m with
  | Some _ => set_store (Some []) m
  | None => m
  end.

(** Modelled from the spec: [modeFor] of [helpers/Flags] is missing.  It
    "validates and assigns [modeSet] to the map", invalid bit combinations
    being "best-effort masked"; leaving EDIT, "if [notifyAfterEditExit],
    fires the deferred notification now". *)
Definition modeFor (m : MapState) (mode : JsValue) (o : Obj) : MapState :=
  let new := js_and (toInt32 mode) ALL in
  let leavingEdit := negb (js_and (modes m) EDIT =? 0) && (js_and new EDIT =? 0) in
  let m := set_modes new m in
  if leavingEdit && truthy (prop o "notifyAfterEditExit") then
    match notifyDeferred m with
    | Some r => updateFor (set_notifyDeferred None m) r
    | None => m
    end
  else m.

(** ** The methods and closures of [FreeDraw] *)

(** [mode(mode = null)], lines 181-185, on the attached map. *)
Definition mode_on (o : Obj) (arg : JsValue) (m : MapState) : MapState * Z :=
  let mode := match arg with VUndefined => VNull | v => v end in
  let m := if decide (typeof mode = "number") then modeFor m mode o else m in
  (m, modes m).

(** [createPath], lines 393-410: the closure starts at [fromPoint]. *)
Definition createPath (fromPoint : Point) (strokeWidth : JsValue) : LineIterator :=
  mkLineIterator fromPoint strokeWidth.

(** A call [lineIterator(toPoint)] of that closure: one path from
    [lastPoint] to [toPoint], and [lastPoint] moves on. *)
Definition callLineIterator (o : Obj) (it : LineIterator) (toPoint : Point)
    (m : MapState) : MapState :=
  let path :=
    mkSegment (lastPoint it) toPoint
      (js_or (prop o "lineclass") (VStr "leaflet-line"))
      (js_or (prop o "fill") (VStr "none"))
      (js_or (prop o "fillOpacity") (num 1))
      (js_or (prop o "stroke") (VStr "black"))
      (strokeWidth it) in
  set_canvas (canvas m ++ [path])
    (set_lineIterator (Some (mkLineIterator toPoint (strokeWidth it))) m).

(** [mouseMove], lines 243-264.  [containerPointToLatLng] builds a new
    LatLng object at every call: it gets a fresh identity.  Where the
    JavaScript throws (no first touch; [lineIterator] undefined) the handler
    ends there and what it did before stays. *)
Definition mouseMove (o : Obj) (event : Event) (m : MapState) : MapState :=
  let e := match originalEvent event with
           | Some oe => oe
           | None => (client event, touches event)
           end in
  let e := match snd e with
           | Some ts => head ts
           | None => Some (fst e)
           end in
  match e with
  | None => m
  | Some e =>
    let point := mouseEventToContainerPoint e in
    let latLng := mkLatLngObj (nextRef m) (containerPointToLatLng point) in
    let m := set_nextRef (S (nextRef m)) m in
    let m := set_latLngs (set_add latLng (latLngs m)) m in
    let svgpoint := mkPoint (px point) (py point) in
    match lineIterator m with
    | None => m
    | Some it => callLineIterator o it svgpoint m
    end
  end.

(** [mouseUp], lines 271-310. *)
Definition mouseUp (o : Obj) (event : Event) (create : bool) (m : MapState) : MapState :=
  if decide (type event = Some "pointercancel") then m
  else
    let m := set_cancelFn (Some CancelNoop) m in
    let m := off (OnMap, "mouseup", HMouseUp) m in
    let m := off (OnMap, "mousemove", HMouseMove) m in
    let m := off (OnContainer, "touchmove", HMouseMove) m in
    let m := off (OnContainer, "touchend", HMouseUp) m in
    let m := if bodyInDocument then off (OnBody, "mouseleave", HMouseUp) m else m in
    let m := set_canvas [] m in
    if create then
      let m := if (length (latLngs m) =? 0)%nat then m
               else createFor m (ll_pos <$> latLngs m) o in
      let m := updateFor m "create" in
      if truthy (prop o "leaveModeAfterCreate") then
        let current := snd (mode_on o VUndefined m) in
        fst (mode_on o (num (js_xor current CREATE)) m)
      else m
    else m.

(** [mouseDown], lines 331-379.  [DomEvent.preventDefault(event)] acts on the
    event only and leaves the state of the map alone. *)
Definition mouseDown (o : Obj) (event : Event) (m : MapState) : MapState :=
  if js_and (modes m) CREATE =? 0 then m
  else if bool_decide (clientX (client event) = Some 0 ∧ clientY (client event) = Some 0)
  then m
  else
    let m := set_latLngs [] m in
    let m := set_lineIterator None m in
    let point := match latlng event with
                 | Some ll => latLngToContainerPoint ll
                 | None => mouseEventToContainerPoint (client event)
                 end in
    let m := set_lineIterator (Some (createPath point (prop o "strokeWidth"))) m in
    let m := match touches event with
             | None => on (OnMap, "mouseup", HMouseUp) (on (OnMap, "mousemove", HMouseMove) m)
             | Some _ => m
             end in
    let m := if bodyInDocument then on (OnBody, "mouseleave", HMouseUp) m else m in
    set_cancelFn (Some CancelMouseUp) m.

(** [_simulateEvent(type, e)], lines 211-224: a mouse event with the client
    position of [e] ([initMouseEvent] turns [undefined] into [0]) is
    dispatched at the target, and reaches the container's [mousedown]
    listener synchronously. *)
Definition simulateEvent (o : Obj) (name : string) (e : Event) (m : MapState) : MapState :=
  let simulatedEvent :=
    mkEvent (Some name)
      (mkClientPos (Some (default 0 (clientX (client e))))
                   (Some (default 0 (clientY (client e)))))
      None None None in
  if decide ((OnContainer, name, HMouseDown) ∈ listeners m)
  then mouseDown o simulatedEvent m
  else m.

(** [touchStart], lines 312-324; [DomEvent.preventDefault] as in
    [mouseDown]. *)
Definition touchStart (o : Obj) (event : Event) (m : MapState) : MapState :=
  if js_and (modes m) CREATE =? 0 then m
  else
    let m := on (OnContainer, "touchmove", HMouseMove) m in
    let m := on (OnContainer, "touchend", HMouseUp) m in
    simulateEvent o "mousedown" event m.

(** [onAdd], lines 89-117, on a map that carries nothing yet: the cancel
    hook, the instance, the deferred notification, the simplification routine
    and the store entry are attached, then the mode is set. *)
Definition onAdd (o : Obj) : MapState :=
  let m := mkMapState 0 (Some CancelNoop) None (Some []) ∅ [] false [] None [] 0%nat true
             true true in
  let m := modeFor m (prop o "mode") o in
  let m := set_svgInDom true m in
  on (OnContainer, "touchstart", HTouchStart) (on (OnContainer, "mousedown", HMouseDown) m).

(** [onRemove], lines 124-143: the store entry, the cancel hook, the instance
    and the simplification routine are deleted from the map.
    [this.mouseDownHandler] is set, so both [map.off] calls run; they name the
    map, not the container. *)
Definition onRemove (m : MapState) : MapState :=
  let m := set_store None m in
  let m := set_svgInDom false m in
  let m := set_cancelFn None m in
  let m := set_instanceOnMap false m in
  let m := set_simplifyOnMap false m in
  let m := off (OnMap, "mousedown", HMouseDown) m in
  off (OnMap, "touchstart", HMouseDown) m.

(** Leaflet's [Layer.prototype.remove], reached by [super.remove()]: a layer
    that is on a map is taken off it, which runs its [onRemove]. *)
Definition super_remove (m : MapState) : MapState :=
  if onMap m then set_onMap false (onRemove m) else m.

(** [mode], lines 181-185. *)
Definition mode (arg : JsValue) (fd : FreeDraw) : Result (FreeDraw * Z) :=
  match fd_map fd with
  | None => TypeError
  | Some m =>
    let '(m, r) := mode_on (options fd) arg m in
    Ok (mkFreeDraw (options fd) (Some m), r)
  end.

(** [cancel], lines 207-209. *)
Definition cancel (fd : FreeDraw) : Result FreeDraw :=
  match fd_map fd with
  | None => TypeError
  | Some m =>
    match cancelFn m with
    | None => TypeError
    | Some CancelNoop => Ok fd
    | Some CancelMouseUp =>
      Ok (mkFreeDraw (options fd) (Some (mouseUp (options fd) emptyEvent false m)))
    end
  end.

(** [remove], lines 162-165. *)
Definition remove (polygon : JsValue) (fd : FreeDraw) : Result FreeDraw :=
  match fd_map fd with
  | None => TypeError
  | Some m =>
    let m := if truthy polygon then removeFor m polygon else super_remove m in
    Ok (mkFreeDraw (options fd) (Some (updateFor m "remove")))
  end.

(** [clear], lines 171-174. *)
Definition clear (fd : FreeDraw) : Result FreeDraw :=
  match fd_map fd with
  | None => TypeError
  | Some m => Ok (mkFreeDraw (options fd) (Some (updateFor (clearFor m) "clear")))
  end.

(** [create], lines 151-155; [None] is the default
    [{ concavePolygon: false }]. *)
Definition create (latLngs : list LatLng) (opts : option Obj) (fd : FreeDraw)
    : Result FreeDraw :=
  match fd_map fd with
  | None => TypeError
  | Some m =>
    let opts := default {[ "concavePolygon" := VBool false ]} opts in
    let m := createFor m latLngs (spread (options fd) opts) in
    Ok (mkFreeDraw (options fd) (Some (updateFor m "create")))
  end.

(** [size], lines 191-193. *)
Definition size (fd : FreeDraw) : Result nat :=
  match fd_map fd with
  | None => TypeError
  | Some m =>
    match store m with
    | None => TypeError
    | Some ps => Ok (length ps)
    end
  end.

(** The registrations left by the teardown of [mouseUp]. *)
Definition tornDown (ls : gset Listener) : gset Listener :=
  let ls := ls ∖ {[ (OnMap, "mouseup", HMouseUp) ]} in
  let ls := ls ∖ {[ (OnMap, "mousemove", HMouseMove) ]} in
  let ls := ls ∖ {[ (OnContainer, "touchmove", HMouseMove) ]} in
  let ls := ls ∖ {[ (OnContainer, "touchend", HMouseUp) ]} in
  if bodyInDocument then ls ∖ {[ (OnBody, "mouseleave", HMouseUp) ]} else ls.

(** The state right after the teardown, before the [if (create)] block. *)
Definition afterTeardown (m : MapState) : MapState :=
  set_canvas [] (set_listeners (tornDown (listeners m)) (set_cancelFn (Some CancelNoop) m)).

(** ** The event loop *)

(** A listener invoked by the host passes the event only, so [mouseUp] runs
    with [create = true]. *)
Definition runHandler (o : Obj) (h : Handler) (ev : Event) (m : MapState) : MapState :=
  match h with
  | HMouseDown => mouseDown o ev m
  | HTouchStart => touchStart o ev m
  | HMouseMove => mouseMove o ev m
  | HMouseUp => mouseUp o ev true m
  end.

(** The host delivers event [name] at [tgt]: the closures registered for it
    when the delivery starts are run. *)
Definition dispatch (o : Obj) (tgt : Target) (name : string) (ev : Event)
    (m : MapState) : MapState :=
  let registered := listeners m in
  foldl (fun m h => if decide ((tgt, name, h) ∈ registered) then runHandler o h ev m else m)
    m [HMouseDown; HTouchStart; HMouseMove; HMouseUp].

(** What can happen to an instance: the host delivers an event, or the
    application calls a method. *)
Inductive Input : Type :=
  | Deliver (tgt : Target) (name : string) (ev : Event)
  | CallCancel
  | CallMode (arg : JsValue)
  | CallRemove (polygon : JsValue)
  | CallClear
  | CallCreate (latLngs : list LatLng) (opts : option Obj).

(** A method that throws leaves the instance as it was. *)
Definition settle {A} (fd : FreeDraw) (r : Result A) (get : A -> FreeDraw) : FreeDraw :=
  match r with
  | Ok a => get a
  | TypeError => fd
  end.

Definition step (i : Input) (fd : FreeDraw) : FreeDraw :=
  match i with
  | Deliver tgt name ev =>
    match fd_map fd with
    | Some m => mkFreeDraw (options fd) (Some (dispatch (options fd) tgt name ev m))
    | None => fd
    end
  | CallCancel => settle fd (cancel fd) id
  | CallMode arg => settle fd (mode arg fd) fst
  | CallRemove polygon => settle fd (remove polygon fd) id
  | CallClear => settle fd (clear fd) id
  | CallCreate latLngs opts => settle fd (create latLngs opts fd) id
  end.

Definition run (inputs : list Input) (fd : FreeDraw) : FreeDraw :=
  foldl (fun fd i => step i fd) fd inputs.

(** [new FreeDraw(options)] followed by [addTo(map)]. *)
Definition attach (arg : OptionsArg) : FreeDraw :=
  let o := constructor arg in
  mkFreeDraw o (Some (onAdd o)).
End Engine.

(** ** A concrete host, for running the handlers *)

(** A map whose container sits at the client origin and whose projection is
    the identity on integer pixels. *)
Definition gridHost : Host := {|
  mouseEventToContainerPoint c := mkPoint (default 0 (clientX c)) (default 0 (clientY c));
  containerPointToLatLng p := mkLatLng (Q2Qc (inject_Z (px p))) (Q2Qc (inject_Z (py p)));
  latLngToContainerPoint ll := mkPoint (Qfloor (lat ll)) (Qfloor (lng ll));
  bodyInDocument := true
|}.

(** Geometry that leaves strokes as they are and never merges. *)
Definition plainGeometry : Geometry := {|
  simplifyPolygon _ pts := pts;
  convexHull pts := pts;
  overlaps _ _ := false;
  unionOf a b := a ++ b
|}.

(** A DOM mouse event at client position [(x, y)]. *)
Definition mouseAt (name : string) (x y : Z) : Event :=
  mkEvent (Some name) (mkClientPos (Some x) (Some y)) None None None.

(** A pointer event as Leaflet hands it to a touch listener: the client
    position of the pointer, and a [touches] list holding it. *)
Definition pointerAt (name : string) (x y : Z) : Event :=
  mkEvent (Some name) (mkClientPos (Some x) (Some y))
    (Some [mkClientPos (Some x) (Some y)]) None None.

(** Concrete runs of the handlers, on [bitFlags], [gridHost] and
    [plainGeometry]. *)
Module Scenario.
#[local] Existing Instance bitFlags.
#[local] Existing Instance gridHost.
#[local] Existing Instance plainGeometry.

(** The default options, and the same with [leaveModeAfterCreate] on. *)
Definition plain : Obj := Eval vm_compute in constructor ArgOmitted.
Definition leaving : Obj := Eval vm_compute in
  constructor (ArgObj {[ "leaveModeAfterCreate" := VBool true ]}).

(** Attached, mode ALL, nothing drawn. *)
Definition idle : MapState := Eval vm_compute in onAdd plain.

(** The same map in EDIT mode only: the CREATE bit is unset. *)
Definition editing : MapState := Eval vm_compute in set_modes EDIT idle.

(** After a mouse-down at (5, 5): capturing, no point yet. *)
Definition pressed : MapState := Eval vm_compute in mouseDown plain (mouseAt "mousedown" 5 5) idle.

(** After two mouse-moves over the same pixel (6, 6). *)
Definition dragged : MapState := Eval vm_compute in
  mouseMove plain (mouseAt "mousemove" 6 6)
    (mouseMove plain (mouseAt "mousemove" 6 6) pressed).

(** The same gesture, as the inputs of the event loop. *)
Definition dragInputs : list Input :=
  [ Deliver OnContainer "mousedown" (mouseAt "mousedown" 5 5);
    Deliver OnMap "mousemove" (mouseAt "mousemove" 6 6);
    Deliver OnMap "mousemove" (mouseAt "mousemove" 6 6) ].

(** The instance while the button is down, no point captured yet. *)
Definition pressedInstance : FreeDraw := Eval vm_compute in mkFreeDraw plain (Some pressed).

(** A touch gesture under way: touch-start at (5, 5), one touch-move to
    (6, 6). *)
Definition touching : FreeDraw := Eval vm_compute in
  run [ Deliver OnContainer "touchstart" (pointerAt "pointerdown" 5 5);
        Deliver OnContainer "touchmove" (pointerAt "pointermove" 6 6) ]
    (attach ArgOmitted).

(** The browser cancels the pointer: Leaflet hands the event to the
    [touchend] listener. *)
Definition pointerCancelled : FreeDraw := Eval vm_compute in
  step (Deliver OnContainer "touchend" (pointerAt "pointercancel" 6 6)) touching.

(** With [leaveModeAfterCreate]: press in CREATE mode, then the application
    switches to EDIT while the button is down ... *)
Definition switched : FreeDraw := Eval vm_compute in
  run [ Deliver OnContainer "mousedown" (mouseAt "mousedown" 5 5);
        CallMode (num EDIT) ]
    (attach (ArgObj {[ "leaveModeAfterCreate" := VBool true ]})).

(** ... and the button is released. *)
Definition released : FreeDraw := Eval vm_compute in
  step (Deliver OnMap "mouseup" (mouseAt "mouseup" 5 5)) switched.
End Scenario.

(** ** Vocabulary of the properties *)

(** The machine is Capturing while [cancel] is armed. *)
Definition capturing (m : MapState) : Prop := cancelFn m = Some CancelMouseUp.

(** The number of polygons in the store of the map. *)
Definition storeSize (m : MapState) : nat := length (default [] (store m)).

(** [m'] differs from [m] at most in the modes, the store, the notifications,
    the deferred notification and the allocation counter, which does not go
    back: the gesture in progress, the listeners and the canvas are those of
    [m]. *)
Record frame (m m' : MapState) : Prop := mkFrame {
  frame_cancelFn : cancelFn m' = cancelFn m;
  frame_listeners : listeners m' = listeners m;
  frame_canvas : canvas m' = canvas m;
  frame_svgInDom : svgInDom m' = svgInDom m;
  frame_latLngs : latLngs m' = latLngs m;
  frame_lineIterator : lineIterator m' = lineIterator m;
  frame_onMap : onMap m' = onMap m;
  frame_nextRef : (nextRef m <= nextRef m')%nat
}.


(** The identities in the stroke are pairwise distinct and all allocated. *)
Definition strokeWf (m : MapState) : Prop :=
  NoDup (ll_ref <$> latLngs m) /\
  Forall (fun o => (ll_ref o < nextRef m)%nat) (latLngs m).

(** Every map state an instance holds is well-formed. *)
Definition instanceWf (fd : FreeDraw) : Prop :=
  forall m : MapState, fd_map fd = Some m -> strokeWf m.

(** Unfolds the field updates, so that projections compute. *)
Ltac fields :=
  unfold on, off, set_modes, set_cancelFn, set_notifyDeferred, set_store, set_listeners,
    set_canvas, set_svgInDom, set_latLngs, set_lineIterator, set_notifications,
    set_nextRef, set_onMap, set_instanceOnMap, set_simplifyOnMap in *;
  cbn [modes cancelFn notifyDeferred store listeners canvas svgInDom latLngs
       lineIterator notifications nextRef onMap instanceOnMap simplifyOnMap] in *.


(** ** The rest of the facade, and the vocabulary of its properties *)

(** [all], lines 199-201: [Array.from(polygons.get(this.map))]. *)
Definition all (fd : FreeDraw) : Result (list Polygon) :=
  match fd_map fd with
  | None => TypeError
  | Some m =>
    match store m with
    | None => TypeError
    | Some ps => Ok ps
    end
  end.

(** The options [create] hands to [createFor], line 152:
    [{ ...this.options, ...options }], [options] defaulting to
    [{ concavePolygon: false }]. *)
Definition createOptions (fd : FreeDraw) (opts : option Obj) : Obj :=
  spread (options fd) (default {[ "concavePolygon" := VBool false ]} opts).

(** The object [mouseMove] takes the position from, lines 248-251:
    [event.originalEvent || event], then its first touch when it has a
    [touches] list ([None]: the list is empty, there is no such object). *)
Definition pointerOf (event : Event) : option ClientPos :=
  let e := match originalEvent event with
           | Some oe => oe
           | None => (client event, touches event)
           end in
  match snd e with
  | Some ts => head ts
  | None => Some (fst e)
  end.

(** The two end points of a path of the canvas. *)
Definition ends (s : Segment) : Point * Point := (seg_from s, seg_to s).

(** The segments of the polyline that starts at [from] and goes through
    [pts]. *)
Fixpoint polyline (from : Point) (pts : list Point) : list (Point * Point) :=
  match pts with
  | [] => []
  | p :: pts => (from, p) :: polyline p pts
  end.

(** The registrations [listenForEvents] makes once, lines 382-383. *)
Definition pointerDownListeners : list Listener :=
  [ (OnContainer, "mousedown", HMouseDown); (OnContainer, "touchstart", HTouchStart) ].

(** The registrations [mouseDown] makes on the map and the body, lines
    367-372; the one on the body only when [document] has a [body]. *)
Definition mouseCaptureListeners (body : bool) : list Listener :=
  [ (OnMap, "mousemove", HMouseMove); (OnMap, "mouseup", HMouseUp) ]
  ++ (if body then [ (OnBody, "mouseleave", HMouseUp) ] else []).

(** The registrations [touchStart] makes, lines 320-321. *)
Definition touchCaptureListeners : list Listener :=
  [ (OnContainer, "touchmove", HMouseMove); (OnContainer, "touchend", HMouseUp) ].

Section Wiring.
Context `{Flags} `{Host}.

(** A run of [mouseMove] over the events of a drag. *)
Definition moves (o : Obj) (evs : list Event) (m : MapState) : MapState :=
  foldl (fun m ev => mouseMove o ev m) m evs.

(** How listeners, cancel hook and line iterator hang together:
    nothing but the registrations above is ever registered; the pointer-down
    listeners are registered; while the cancel hook is the empty function no
    mouse capture listener is registered; while it is armed the line iterator
    exists and the listener on the body is registered. *)
Record wired (m : MapState) : Prop := mkWired {
  wired_known : forall l : Listener, l ∈ listeners m ->
    l ∈ pointerDownListeners ++ mouseCaptureListeners bodyInDocument ++ touchCaptureListeners;
  wired_down : forall l : Listener, l ∈ pointerDownListeners -> l ∈ listeners m;
  wired_idle : cancelFn m = Some CancelNoop ->
    forall l : Listener, l ∈ mouseCaptureListeners bodyInDocument -> l ∉ listeners m;
  wired_armed : capturing m ->
    lineIterator m <> None /\
    (bodyInDocument = true -> (OnBody, "mouseleave", HMouseUp) ∈ listeners m)
}.

(** Every map state an instance holds is wired. *)
Definition instanceWired (fd : FreeDraw) : Prop :=
  forall m : MapState, fd_map fd = Some m -> wired m.
End Wiring.

(** Turns membership in the lists of registrations into equations. *)
Ltac lists :=
  unfold pointerDownListeners, mouseCaptureListeners, touchCaptureListeners in *;
  rewrite ?elem_of_app, ?elem_of_cons, ?elem_of_nil in *.

(** Events and inputs for concrete runs of the rest of the code. *)
Module Probe.
#[local] Existing Instance bitFlags.
#[local] Existing Instance gridHost.
#[local] Existing Instance plainGeometry.

(** A touch event as the browser builds it: no [clientX] of its own, the
    position is in [touches]. *)
Definition touchEvent : Event :=
  mkEvent (Some "touchstart") (mkClientPos None None)
    (Some [mkClientPos (Some 5) (Some 5)]) None None.

(** The press that starts a drag, as an input of the event loop. *)
Definition pressInputs : list Input :=
  [ Deliver OnContainer "mousedown" (mouseAt "mousedown" 5 5) ].

(** Two moves, and the positions they carry. *)
Definition dragEvents : list Event :=
  [ mouseAt "mousemove" 6 6; mouseAt "mousemove" 7 9 ].
Definition dragPositions : list ClientPos :=
  [ mkClientPos (Some 6) (Some 6); mkClientPos (Some 7) (Some 9) ].
End Probe.

(** ** Properties *)

Section Gating.
Context `{Flags} `{Host}.

(** C4. A pointer-down, be it [mouseDown] or [touchStart], that arrives
    while the CREATE bit of the map's modes is unset changes nothing: the
    machine does not start capturing and the store keeps its size. *)
Theorem pointer_down_gated_by_create (o : Obj) (ev : Event) (m : MapState) :
  js_and (modes m) CREATE = 0 ->
  (mouseDown o ev m = m /\ touchStart o ev m = m) /\
  (capturing (mouseDown o ev m) <-> capturing m) /\
  (capturing (touchStart o ev m) <-> capturing m) /\
  storeSize (mouseDown o ev m) = storeSize m /\
  storeSize (touchStart o ev m) = storeSize m.
Proof.
  intros Hgate.
  assert (Hd : mouseDown o ev m = m).
  { unfold mouseDown. apply Z.eqb_eq in Hgate. by rewrite Hgate. }
  assert (Ht : touchStart o ev m = m).
  { unfold touchStart. apply Z.eqb_eq in Hgate. by rewrite Hgate. }
  rewrite Hd, Ht. tauto.
Qed.

(** A mouse-down whose client coordinates are both zero is ignored:
    whatever the mode, the state of the map is left as it was, so no
    capture starts, no stroke is created and no listener is registered. *)
Lemma degenerate_mouse_down_ignored (o : Obj) (ev : Event) (m : MapState) :
  clientX (client ev) = Some 0 ->
  clientY (client ev) = Some 0 ->
  mouseDown o ev m = m /\
  listeners (mouseDown o ev m) = listeners m /\
  latLngs (mouseDown o ev m) = latLngs m /\
  lineIterator (mouseDown o ev m) = lineIterator m /\
  (capturing (mouseDown o ev m) <-> capturing m).
Proof.
  intros Hx Hy.
  assert (Hd : mouseDown o ev m = m).
  { unfold mouseDown. destruct (js_and (modes m) CREATE =? 0); [done |].
    by rewrite bool_decide_eq_true_2. }
  rewrite Hd. tauto.
Qed.
End Gating.

(** The hypothesis of C4 holds of the map in EDIT mode. *)
Lemma pointer_down_gated_by_create_witness :
  js_and (modes Scenario.editing) (@CREATE bitFlags) = 0 /\
  @mouseDown bitFlags gridHost Scenario.plain (mouseAt "mousedown" 5 5) Scenario.editing
    = Scenario.editing.
Proof.
  split; [reflexivity |].
  apply (@pointer_down_gated_by_create bitFlags gridHost Scenario.plain
           (mouseAt "mousedown" 5 5) Scenario.editing).
  reflexivity.
Defined.

(** A mouse-down at the client origin, in CREATE mode. *)
Lemma degenerate_mouse_down_ignored_witness :
  clientX (client (mouseAt "mousedown" 0 0)) = Some 0 /\
  clientY (client (mouseAt "mousedown" 0 0)) = Some 0 /\
  @mouseDown bitFlags gridHost Scenario.plain (mouseAt "mousedown" 0 0) Scenario.idle
    = Scenario.idle.
Proof.
  split; [reflexivity |]. split; [reflexivity |].
  apply (@degenerate_mouse_down_ignored bitFlags gridHost Scenario.plain
           (mouseAt "mousedown" 0 0) Scenario.idle); reflexivity.
Defined.

Section Facade.
Context `{Flags} `{Host} `{Geometry}.

Lemma same_instance (fd : FreeDraw) (m : MapState) :
  fd_map fd = Some m -> mkFreeDraw (options fd) (Some m) = fd.
Proof. destruct fd; simpl; by intros ->. Qed.

(** C8. On an attached instance, [mode] called with an argument that is not
    of type number does not throw, leaves the instance (and so the modes of
    the map) as it was, and returns the current modes; so does [mode] called
    with no argument. *)
Theorem mode_non_numeric_is_query (v : JsValue) (fd : FreeDraw) (m : MapState) :
  typeof v <> "number" ->
  fd_map fd = Some m ->
  mode v fd = Ok (fd, modes m) /\ mode VUndefined fd = Ok (fd, modes m).
Proof.
  intros Hty Hmap. unfold mode, mode_on. rewrite Hmap.
  split.
  - destruct v; simpl in *; try congruence; by rewrite (same_instance fd m).
  - simpl. by rewrite (same_instance fd m).
Qed.

Lemma updateFor_onMap (m : MapState) (r : string) : onMap (updateFor m r) = onMap m.
Proof. reflexivity. Qed.

Lemma updateFor_store (m : MapState) (r : string) : store (updateFor m r) = store m.
Proof. reflexivity. Qed.


Lemma super_remove_onMap (m : MapState) : onMap (super_remove m) = false.
Proof. unfold super_remove. destruct (onMap m) eqn:Hon; [reflexivity | exact Hon]. Qed.

Lemma super_remove_store (m : MapState) :
  store (super_remove m) = if onMap m then None else store m.
Proof. unfold super_remove. by destruct (onMap m). Qed.

Lemma super_remove_notifications (m : MapState) :
  notifications (super_remove m) = notifications m.
Proof. unfold super_remove. by destruct (onMap m). Qed.

End Facade.

Section Defaults.
Context `{Flags}.

(** C9. The options of an instance are the defaults overridden, property by
    property, by what the caller passed; with no argument they are the ten
    documented defaults and nothing else. *)
Theorem constructor_merges_over_defaults :
  (forall (o : Obj) (k : string),
      constructor (ArgObj o) !! k =
        match o !! k with
        | Some v => Some v
        | None => defaultOptions !! k
        end) /\
  (forall k : string, constructor ArgOmitted !! k = defaultOptions !! k) /\
  constructor ArgOmitted !! "mode" = Some (num ALL) /\
  constructor ArgOmitted !! "smoothFactor" = Some (VNum (3 # 10)) /\
  constructor ArgOmitted !! "elbowDistance" = Some (num 10) /\
  constructor ArgOmitted !! "simplifyFactor" = Some (VNum (11 # 10)) /\
  constructor ArgOmitted !! "mergePolygons" = Some (VBool true) /\
  constructor ArgOmitted !! "concavePolygon" = Some (VBool true) /\
  constructor ArgOmitted !! "maximumPolygons" = Some VInfinity /\
  constructor ArgOmitted !! "notifyAfterEditExit" = Some (VBool false) /\
  constructor ArgOmitted !! "leaveModeAfterCreate" = Some (VBool false) /\
  constructor ArgOmitted !! "strokeWidth" = Some (num 2) /\
  dom (constructor ArgOmitted) =
    list_to_set [ "mode"; "smoothFactor"; "elbowDistance"; "simplifyFactor";
                  "mergePolygons"; "concavePolygon"; "maximumPolygons";
                  "notifyAfterEditExit"; "leaveModeAfterCreate"; "strokeWidth" ].
Proof.
  assert (Hno : constructor ArgOmitted = defaultOptions).
  { unfold constructor, spread. apply map_eq. intros k.
    rewrite lookup_union. by destruct (defaultOptions !! k). }
  split.
  { intros o k. unfold constructor, spread. rewrite lookup_union.
    destruct (o !! k), (defaultOptions !! k); reflexivity. }
  split; [by rewrite Hno |].
  rewrite Hno. unfold defaultOptions.
  repeat (split; [reflexivity |]).
  simpl. rewrite !dom_insert_L, dom_empty_L. reflexivity.
Qed.
End Defaults.

(** C8 on the freshly attached instance, with a string for argument. *)
Lemma mode_non_numeric_is_query_witness :
  typeof (VStr "edit") <> "number" /\
  fd_map (@attach bitFlags ArgOmitted) = Some Scenario.idle /\
  @mode bitFlags (VStr "edit") (@attach bitFlags ArgOmitted)
    = Ok (@attach bitFlags ArgOmitted, @ALL bitFlags).
Proof.
  split; [discriminate |]. split; [reflexivity |].
  apply (@mode_non_numeric_is_query bitFlags (VStr "edit") (@attach bitFlags ArgOmitted)
           Scenario.idle); [discriminate | reflexivity].
Defined.


(** *** What the helpers leave alone *)

Lemma frame_refl (m : MapState) : frame m m.
Proof. by constructor. Qed.

Lemma frame_trans (m1 m2 m3 : MapState) : frame m1 m2 -> frame m2 m3 -> frame m1 m3.
Proof.
  intros [] []. constructor; try congruence. lia.
Qed.

Section Frames.
Context `{Flags} `{Host} `{Geometry}.

Lemma updateFor_frame (m : MapState) (r : string) : frame m (updateFor m r).
Proof. by constructor. Qed.

Lemma createFor_frame (m : MapState) (pts : list LatLng) (o : Obj) :
  frame m (createFor m pts o).
Proof.
  unfold createFor.
  repeat case_match; try apply frame_refl; (constructor; try reflexivity; simpl; lia).
Qed.

Lemma removeFor_frame (m : MapState) (v : JsValue) : frame m (removeFor m v).
Proof. unfold removeFor. repeat case_match; by constructor. Qed.

Lemma clearFor_frame (m : MapState) : frame m (clearFor m).
Proof. unfold clearFor. case_match; by constructor. Qed.

Lemma modeFor_frame (m : MapState) (v : JsValue) (o : Obj) : frame m (modeFor m v o).
Proof. unfold modeFor. repeat case_match; by constructor. Qed.

Lemma mode_on_frame (o : Obj) (v : JsValue) (m : MapState) :
  frame m (fst (mode_on o v m)).
Proof.
  unfold mode_on. simpl. case_match; [apply modeFor_frame | apply frame_refl].
Qed.

Lemma modeFor_store (m : MapState) (v : JsValue) (o : Obj) :
  store (modeFor m v o) = store m.
Proof. unfold modeFor. by repeat case_match. Qed.

Lemma mode_on_store (o : Obj) (v : JsValue) (m : MapState) :
  store (fst (mode_on o v m)) = store m.
Proof. unfold mode_on. simpl. case_match; [apply modeFor_store | done]. Qed.

(** The notifications only grow under [modeFor], and do not change unless a
    deferred notification was pending. *)
Lemma modeFor_notifications (m : MapState) (v : JsValue) (o : Obj) :
  exists rest, notifications (modeFor m v o) = notifications m ++ rest /\
               (notifyDeferred m = None -> rest = []).
Proof.
  unfold modeFor. repeat case_match; fields; subst;
    try (exists []; split; [by rewrite app_nil_r | done]).
  eexists. split; [reflexivity | congruence].
Qed.

Lemma mode_on_notifications (o : Obj) (v : JsValue) (m : MapState) :
  exists rest, notifications (fst (mode_on o v m)) = notifications m ++ rest /\
               (notifyDeferred m = None -> rest = []).
Proof.
  unfold mode_on. simpl. case_match; [apply modeFor_notifications |].
  exists []. split; [by rewrite app_nil_r | done].
Qed.

Lemma tornDown_elem (ls : gset Listener) (l : Listener) :
  l ∈ tornDown ls ->
  l ∈ ls /\
  l <> (OnMap, "mouseup", HMouseUp) /\
  l <> (OnMap, "mousemove", HMouseMove) /\
  l <> (OnContainer, "touchmove", HMouseMove) /\
  l <> (OnContainer, "touchend", HMouseUp) /\
  (bodyInDocument = true -> l <> (OnBody, "mouseleave", HMouseUp)).
Proof.
  unfold tornDown. destruct bodyInDocument;
    rewrite !elem_of_difference, !elem_of_singleton; intros Hin;
    repeat split; try tauto. discriminate.
Qed.

Lemma mouseUp_unfold (o : Obj) (ev : Event) (create : bool) (m : MapState) :
  type ev <> Some "pointercancel" ->
  mouseUp o ev create m =
    let m := afterTeardown m in
    if create then
      let m := if (length (latLngs m) =? 0)%nat then m
               else createFor m (ll_pos <$> latLngs m) o in
      let m := updateFor m "create" in
      if truthy (prop o "leaveModeAfterCreate") then
        fst (mode_on o (num (js_xor (modes m) CREATE)) m)
      else m
    else m.
Proof.
  intros Hty. unfold mouseUp, afterTeardown, tornDown.
  destruct (decide (type ev = Some "pointercancel")); [done |].
  destruct bodyInDocument; reflexivity.
Qed.

Lemma mouseUp_frame (o : Obj) (ev : Event) (create : bool) (m : MapState) :
  type ev <> Some "pointercancel" ->
  frame (afterTeardown m) (mouseUp o ev create m).
Proof.
  intros Hty. rewrite mouseUp_unfold by done. cbv zeta.
  destruct create; [| apply frame_refl].
  set (m1 := if (length (latLngs (afterTeardown m)) =? 0)%nat then afterTeardown m
             else createFor (afterTeardown m) (ll_pos <$> latLngs (afterTeardown m)) o).
  assert (Hf1 : frame (afterTeardown m) m1).
  { subst m1. case_match; [apply frame_refl | apply createFor_frame]. }
  assert (Hf2 : frame (afterTeardown m) (updateFor m1 "create")).
  { eapply frame_trans; [exact Hf1 | apply updateFor_frame]. }
  case_match; [| exact Hf2].
  eapply frame_trans; [exact Hf2 | apply mode_on_frame].
Qed.
End Frames.

Section Capture.
Context `{Flags} `{Host} `{Geometry}.

Lemma onAdd_idle (o : Obj) : cancelFn (onAdd o) = Some CancelNoop.
Proof.
  unfold onAdd. fields.
  match goal with |- cancelFn (modeFor ?m ?v ?o) = _ =>
    rewrite (frame_cancelFn _ _ (modeFor_frame m v o)) end.
  reflexivity.
Qed.

Lemma mouseUp_idle (o : Obj) (ev : Event) (create : bool) (m : MapState) :
  type ev <> Some "pointercancel" ->
  cancelFn (mouseUp o ev create m) = Some CancelNoop.
Proof.
  intros Hty. by rewrite (frame_cancelFn _ _ (mouseUp_frame o ev create m Hty)).
Qed.

(** C5. [cancel] is idempotent.  While Idle (right after [attach], after a
    gesture ended through [mouseUp], or whenever the cancel hook is the
    empty function) it is a no-op.  While Capturing, a first call succeeds,
    and a second call on its result changes nothing, so two calls leave the
    listeners, the canvas and the store as one call does; the store and the
    notifications are those from before the call: no polygon is made. *)
Theorem cancel_idempotent :
  (forall arg : OptionsArg, cancel (attach arg) = Ok (attach arg)) /\
  (forall (o : Obj) (ev : Event) (create : bool) (m : MapState),
      type ev <> Some "pointercancel" ->
      cancel (mkFreeDraw o (Some (mouseUp o ev create m)))
        = Ok (mkFreeDraw o (Some (mouseUp o ev create m)))) /\
  (forall (fd : FreeDraw) (m : MapState),
      fd_map fd = Some m -> cancelFn m = Some CancelNoop -> cancel fd = Ok fd) /\
  (forall (fd : FreeDraw) (m : MapState),
      fd_map fd = Some m -> capturing m ->
      exists (fd' : FreeDraw) (m' : MapState),
        cancel fd = Ok fd' /\
        cancel fd' = Ok fd' /\
        fd_map fd' = Some m' /\
        ~ capturing m' /\
        store m' = store m /\
        notifications m' = notifications m /\
        modes m' = modes m).
Proof.
  assert (Hidle : forall (fd : FreeDraw) (m : MapState),
             fd_map fd = Some m -> cancelFn m = Some CancelNoop -> cancel fd = Ok fd).
  { intros fd m Hmap Hc. unfold cancel. by rewrite Hmap, Hc. }
  split; [| split; [| split]].
  - intros arg. eapply Hidle; [reflexivity | apply onAdd_idle].
  - intros o ev create m Hty. eapply Hidle; [reflexivity | by apply mouseUp_idle].
  - exact Hidle.
  - intros fd m Hmap Hcap. unfold capturing in Hcap.
    assert (Hty : type emptyEvent <> Some "pointercancel") by discriminate.
    exists (mkFreeDraw (options fd) (Some (mouseUp (options fd) emptyEvent false m))),
           (mouseUp (options fd) emptyEvent false m).
    split; [unfold cancel; by rewrite Hmap, Hcap |].
    split; [eapply Hidle; [reflexivity | by apply mouseUp_idle] |].
    split; [reflexivity |].
    split; [unfold capturing; by rewrite mouseUp_idle |].
    rewrite mouseUp_unfold by done. cbv zeta. by unfold afterTeardown.
Qed.

(** C2, as the code has it.  [mouseUp] on any event other than a
    [pointercancel] (pointer-up, touch-end, the pointer leaving the body,
    [cancel]) arms the empty cancel hook, unregisters the move and up
    listeners and empties the canvas; run by [cancel] ([create] false) it
    makes no polygon and fires nothing.  A [pointercancel] event is ignored:
    [mouseUp] returns at once, so nothing is unregistered or cleared, the
    machine stays as it was, and no polygon is made. *)
Theorem mouseUp_teardown_unless_pointercancel
    (o : Obj) (ev : Event) (create : bool) (m : MapState) :
  (type ev <> Some "pointercancel" ->
     let m' := mouseUp o ev create m in
     ~ capturing m' /\
     ((OnMap, "mousemove", HMouseMove) ∉ listeners m') /\
     ((OnMap, "mouseup", HMouseUp) ∉ listeners m') /\
     ((OnContainer, "touchmove", HMouseMove) ∉ listeners m') /\
     ((OnContainer, "touchend", HMouseUp) ∉ listeners m') /\
     (bodyInDocument = true -> (OnBody, "mouseleave", HMouseUp) ∉ listeners m') /\
     canvas m' = [] /\
     (create = false -> store m' = store m /\ notifications m' = notifications m)) /\
  (type ev = Some "pointercancel" -> mouseUp o ev create m = m).
Proof.
  split.
  - intros Hty m'. subst m'.
    pose proof (mouseUp_frame o ev create m Hty) as [Hc Hl Hcv _ _ _ _ _].
    unfold capturing. rewrite Hc, Hl, Hcv.
    replace (listeners (afterTeardown m)) with (tornDown (listeners m)) by reflexivity.
    replace (cancelFn (afterTeardown m)) with (Some CancelNoop) by reflexivity.
    replace (canvas (afterTeardown m)) with (@nil Segment) by reflexivity.
    split; [discriminate |].
    do 4 (split; [intros Hin; apply tornDown_elem in Hin; tauto |]).
    split; [intros Hbody Hin; apply tornDown_elem in Hin; tauto |].
    split; [reflexivity |].
    intros ->. rewrite mouseUp_unfold by done. split; reflexivity.
  - intros Hty. unfold mouseUp. by destruct (decide (type ev = Some "pointercancel")).
Qed.

(** C1, as the code has it.  A completing [mouseUp] on a stroke with no
    point, or whose points give fewer than 3 distinct usable vertices, adds
    no polygon: the store is unchanged, and so is its size.  The "create"
    notification is fired all the same, carrying the unchanged store. *)
Theorem short_stroke_adds_no_polygon (o : Obj) (ev : Event) (m : MapState) :
  type ev <> Some "pointercancel" ->
  latLngs m = [] \/
    (length (remove_dups (usableVertices (ll_pos <$> latLngs m) o)) < 3)%nat ->
  let m' := mouseUp o ev true m in
  store m' = store m /\
  storeSize m' = storeSize m /\
  exists rest : list Notification,
    notifications m' = notifications m ++ mkNotification "create" (store m) :: rest /\
    (truthy (prop o "leaveModeAfterCreate") = false -> rest = []).
Proof.
  intros Hty Hshort m'. subst m'.
  rewrite mouseUp_unfold by done. cbv zeta.
  set (m0 := afterTeardown m).
  set (m1 := if (length (latLngs m0) =? 0)%nat then m0
             else createFor m0 (ll_pos <$> latLngs m0) o).
  assert (Hm1 : m1 = m0).
  { subst m1. destruct Hshort as [Hnil | Hfew].
    - subst m0. unfold afterTeardown. fields. by rewrite Hnil.
    - case_match; [done |]. unfold createFor.
      replace (latLngs m0) with (latLngs m) by reflexivity.
      apply Nat.ltb_lt in Hfew. by rewrite Hfew. }
  rewrite Hm1.
  assert (Hst : forall x, store x = store (updateFor m0 "create") -> store x = store m)
    by (intros x ->; reflexivity).
  case_match.
  - destruct (mode_on_notifications o
                (num (js_xor (modes (updateFor m0 "create")) CREATE))
                (updateFor m0 "create")) as (rest & Hn & _).
    assert (Hs : store (fst (mode_on o
                (num (js_xor (modes (updateFor m0 "create")) CREATE))
                (updateFor m0 "create"))) = store m)
      by (apply Hst, mode_on_store).
    split; [exact Hs |]. split; [unfold storeSize; by rewrite Hs |].
    exists rest. split; [| congruence].
    rewrite Hn. unfold updateFor, m0, afterTeardown. fields. by rewrite <- app_assoc.
  - split; [reflexivity |]. split; [reflexivity |].
    exists []. split; [reflexivity | done].
Qed.
End Capture.

(** *** The stroke holds no object twice *)

Lemma set_add_twice (o : LatLngObj) (s : list LatLngObj) :
  set_add o (set_add o s) = set_add o s.
Proof.
  destruct (decide (ll_ref o ∈ ll_ref <$> s)) as [Hin | Hin].
  - assert (Hs : set_add o s = s) by (unfold set_add; by rewrite decide_True).
    by rewrite !Hs.
  - assert (Hs : set_add o s = s ++ [o]) by (unfold set_add; by rewrite decide_False).
    rewrite Hs. unfold set_add. rewrite decide_True; [done |].
    rewrite fmap_app. apply elem_of_app. right. apply list_elem_of_singleton.
    reflexivity.
Qed.

Lemma set_add_fresh (n : nat) (p : LatLng) (s : list LatLngObj) :
  NoDup (ll_ref <$> s) ->
  Forall (fun o => (ll_ref o < n)%nat) s ->
  NoDup (ll_ref <$> set_add (mkLatLngObj n p) s) /\
  Forall (fun o => (ll_ref o < S n)%nat) (set_add (mkLatLngObj n p) s).
Proof.
  intros Hnd Hlt.
  assert (Hlt' : Forall (fun o => (ll_ref o < S n)%nat) s).
  { eapply Forall_impl; [exact Hlt |]. simpl. lia. }
  unfold set_add. case_decide as Hin; [done |]. split.
  - rewrite fmap_app. apply NoDup_app. split; [done |]. split.
    + intros x Hx Hx'. simpl in Hx'. apply list_elem_of_singleton in Hx'. subst x.
      contradiction.
    + simpl. apply NoDup_singleton.
  - apply Forall_app. split; [done |]. apply Forall_singleton. simpl. lia.
Qed.

Lemma strokeWf_keep (m m' : MapState) :
  latLngs m' = latLngs m -> (nextRef m <= nextRef m')%nat -> strokeWf m -> strokeWf m'.
Proof.
  intros Hl Hn [Hnd Hlt]. unfold strokeWf. rewrite Hl. split; [exact Hnd |].
  eapply Forall_impl; [exact Hlt |]. simpl. lia.
Qed.

Lemma strokeWf_empty (m : MapState) : latLngs m = [] -> strokeWf m.
Proof. intros Hl. unfold strokeWf. rewrite Hl. split; constructor. Qed.

Lemma strokeWf_frame (m m' : MapState) : frame m m' -> strokeWf m -> strokeWf m'.
Proof. intros [_ _ _ _ Hl _ _ Hn]. by apply strokeWf_keep. Qed.

Section Stroke.
Context `{Flags} `{Host} `{Geometry}.

Lemma mouseMove_wf (o : Obj) (ev : Event) (m : MapState) :
  strokeWf m -> strokeWf (mouseMove o ev m).
Proof.
  intros Hwf. unfold mouseMove.
  match goal with
  | |- strokeWf (match ?r with Some _ => _ | None => _ end) => destruct r as [c |]
  end; [| exact Hwf].
  assert (Hadd : forall m' : MapState,
             latLngs m' =
               set_add (mkLatLngObj (nextRef m)
                          (containerPointToLatLng (mouseEventToContainerPoint c)))
                 (latLngs m) ->
             nextRef m' = S (nextRef m) -> strokeWf m').
  { intros m' Hl Hn. destruct Hwf as [Hnd Hlt]. unfold strokeWf. rewrite Hl, Hn.
    by apply set_add_fresh. }
  case_match; apply Hadd; reflexivity.
Qed.

Lemma mouseDown_wf (o : Obj) (ev : Event) (m : MapState) :
  strokeWf m -> strokeWf (mouseDown o ev m).
Proof.
  intros Hwf. unfold mouseDown.
  case_match; [exact Hwf |]. case_match; [exact Hwf |].
  apply strokeWf_empty. repeat case_match; reflexivity.
Qed.

Lemma touchStart_wf (o : Obj) (ev : Event) (m : MapState) :
  strokeWf m -> strokeWf (touchStart o ev m).
Proof.
  intros Hwf. unfold touchStart.
  case_match; [exact Hwf |].
  assert (Hon : strokeWf (on (OnContainer, "touchend", HMouseUp)
                            (on (OnContainer, "touchmove", HMouseMove) m))).
  { apply (strokeWf_keep m); [reflexivity | reflexivity | exact Hwf]. }
  unfold simulateEvent. case_match; [by apply mouseDown_wf | exact Hon].
Qed.

Lemma mouseUp_wf (o : Obj) (ev : Event) (create : bool) (m : MapState) :
  strokeWf m -> strokeWf (mouseUp o ev create m).
Proof.
  intros Hwf.
  destruct (decide (type ev = Some "pointercancel")) as [Hty | Hty].
  - unfold mouseUp. rewrite decide_True; [exact Hwf | exact Hty].
  - apply (strokeWf_frame (afterTeardown m)); [by apply mouseUp_frame |].
    apply (strokeWf_keep m); [reflexivity | reflexivity | exact Hwf].
Qed.

Lemma runHandler_wf (o : Obj) (h : Handler) (ev : Event) (m : MapState) :
  strokeWf m -> strokeWf (runHandler o h ev m).
Proof.
  intros Hwf. destruct h; simpl.
  - by apply mouseDown_wf.
  - by apply touchStart_wf.
  - by apply mouseMove_wf.
  - by apply mouseUp_wf.
Qed.

Lemma dispatch_wf (o : Obj) (tgt : Target) (name : string) (ev : Event) (m : MapState) :
  strokeWf m -> strokeWf (dispatch o tgt name ev m).
Proof.
  intros Hwf. unfold dispatch.
  generalize (listeners m) as registered. intros registered.
  generalize [HMouseDown; HTouchStart; HMouseMove; HMouseUp] as hs. intros hs.
  revert m Hwf. induction hs as [| h hs IH]; intros m Hwf; simpl; [exact Hwf |].
  apply IH. case_decide; [by apply runHandler_wf | exact Hwf].
Qed.

Lemma onAdd_wf (o : Obj) : strokeWf (onAdd o).
Proof.
  apply strokeWf_empty. unfold onAdd.
  set (m0 := mkMapState 0 (Some CancelNoop) None (Some []) ∅ [] false [] None [] 0%nat true
              true true).
  transitivity (latLngs (modeFor m0 (prop o "mode") o)); [reflexivity |].
  by rewrite (frame_latLngs _ _ (modeFor_frame m0 (prop o "mode") o)).
Qed.

Lemma super_remove_wf (m : MapState) : strokeWf m -> strokeWf (super_remove m).
Proof.
  intros Hwf. unfold super_remove. case_match; [| exact Hwf].
  apply (strokeWf_keep m); [reflexivity | reflexivity | exact Hwf].
Qed.

Lemma step_wf (i : Input) (fd : FreeDraw) : instanceWf fd -> instanceWf (step i fd).
Proof.
  intros Hwf. destruct fd as [o [m |]]; [| by destruct i].
  specialize (Hwf m eq_refl).
  assert (Hsame : instanceWf (mkFreeDraw o (Some m))) by (by intros ? [= <-]).
  destruct i; unfold step, settle; simpl.
  - intros ? [= <-]. by apply dispatch_wf.
  - unfold cancel. simpl. destruct (cancelFn m) as [[] |]; try exact Hsame.
    intros ? [= <-]. by apply mouseUp_wf.
  - unfold mode. simpl. destruct (mode_on o arg m) as [m1 r] eqn:Hm. simpl.
    intros ? [= <-].
    replace m1 with (fst (mode_on o arg m)) by (by rewrite Hm).
    apply (strokeWf_frame m); [apply mode_on_frame | exact Hwf].
  - intros ? [= <-]. eapply strokeWf_frame; [apply updateFor_frame |].
    case_match; [apply (strokeWf_frame m); [apply removeFor_frame | exact Hwf] |].
    by apply super_remove_wf.
  - intros ? [= <-]. eapply strokeWf_frame; [apply updateFor_frame |].
    apply (strokeWf_frame m); [apply clearFor_frame | exact Hwf].
  - intros ? [= <-]. eapply strokeWf_frame; [apply updateFor_frame |].
    apply (strokeWf_frame m); [apply createFor_frame | exact Hwf].
Qed.

Lemma run_wf (inputs : list Input) (fd : FreeDraw) :
  instanceWf fd -> instanceWf (run inputs fd).
Proof.
  revert fd. induction inputs as [| i inputs IH]; intros fd Hwf; [done |].
  unfold run. simpl. apply IH. by apply step_wf.
Qed.

(** C3, as the code has it.  The stroke is a [Set] of LatLng objects: from
    [attach] on, whatever events are delivered and methods called, it never
    holds the same object twice, and adding an object it already holds
    leaves it as it is.  The comparison is by identity, not by latitude and
    longitude. *)
Theorem stroke_is_duplicate_free_by_identity
    (arg : OptionsArg) (inputs : list Input) (m : MapState) :
  fd_map (run inputs (attach arg)) = Some m ->
  NoDup (ll_ref <$> latLngs m) /\
  NoDup (latLngs m) /\
  forall o : LatLngObj, set_add o (set_add o (latLngs m)) = set_add o (latLngs m).
Proof.
  intros Hmap.
  assert (Hwf : strokeWf m).
  { apply (run_wf inputs (attach arg)); [| exact Hmap].
    intros m0 [= <-]. apply onAdd_wf. }
  destruct Hwf as [Hnd _].
  split; [exact Hnd |]. split; [by apply NoDup_fmap_1 in Hnd |].
  intros o. apply set_add_twice.
Qed.
End Stroke.

(** *** Concrete runs *)

Section Runs.
#[local] Existing Instance bitFlags.
#[local] Existing Instance gridHost.
#[local] Existing Instance plainGeometry.

(** C1 fails as stated: a press and release with no point in between adds
    no polygon, but the "create" notification is fired. *)
Lemma short_stroke_still_notifies :
  latLngs Scenario.pressed = [] /\
  notifications Scenario.pressed = [] /\
  store (mouseUp Scenario.plain (mouseAt "mouseup" 5 5) true Scenario.pressed)
    = store Scenario.pressed /\
  notifications (mouseUp Scenario.plain (mouseAt "mouseup" 5 5) true Scenario.pressed)
    = [mkNotification "create" (Some [])].
Proof.
  split; [vm_compute; reflexivity |]. split; [vm_compute; reflexivity |].
  split; vm_compute; reflexivity.
Qed.

(** C1, amended, on that press and release. *)
Lemma short_stroke_adds_no_polygon_witness :
  type (mouseAt "mouseup" 5 5) <> Some "pointercancel" /\
  latLngs Scenario.pressed = [] /\
  store (mouseUp Scenario.plain (mouseAt "mouseup" 5 5) true Scenario.pressed)
    = store Scenario.pressed.
Proof.
  split; [discriminate |]. split; [reflexivity |].
  apply (short_stroke_adds_no_polygon Scenario.plain (mouseAt "mouseup" 5 5)
           Scenario.pressed); [discriminate | left; reflexivity].
Defined.

(** C2 fails as stated: a [pointercancel] delivered to the [touchend]
    listener during a touch gesture changes nothing; the machine is still
    capturing, the touch listeners are still registered and the segment
    drawn so far is still on the canvas. *)
Lemma pointercancel_tears_nothing_down :
  Scenario.pointerCancelled = Scenario.touching /\
  exists m : MapState,
    fd_map Scenario.pointerCancelled = Some m /\
    capturing m /\
    (OnContainer, "touchmove", HMouseMove) ∈ listeners m /\
    (OnContainer, "touchend", HMouseUp) ∈ listeners m /\
    length (canvas m) = 1%nat.
Proof.
  split; [vm_compute; reflexivity |].
  eexists. split; [reflexivity |].
  split; [vm_compute; reflexivity |].
  split; [apply (bool_decide_unpack _); vm_compute; exact I |].
  split; [apply (bool_decide_unpack _); vm_compute; exact I |].
  vm_compute; reflexivity.
Qed.

(** C2, amended, on a mouse-up that ends the drag. *)
Lemma mouseUp_teardown_unless_pointercancel_witness :
  type (mouseAt "mouseup" 6 6) <> Some "pointercancel" /\
  canvas (mouseUp Scenario.plain (mouseAt "mouseup" 6 6) true Scenario.dragged) = [].
Proof.
  split; [discriminate |].
  pose proof (proj1 (mouseUp_teardown_unless_pointercancel Scenario.plain
                       (mouseAt "mouseup" 6 6) true Scenario.dragged)) as Hup.
  apply Hup. discriminate.
Defined.

(** C3 fails as stated: two moves over the same pixel put the same latitude
    and longitude twice in the collection handed to the builder. *)
Lemma stroke_records_revisited_point_twice :
  ll_pos <$> latLngs Scenario.dragged =
    [ containerPointToLatLng (mkPoint 6 6); containerPointToLatLng (mkPoint 6 6) ] /\
  ~ NoDup (ll_pos <$> latLngs Scenario.dragged).
Proof.
  assert (Hl : ll_pos <$> latLngs Scenario.dragged =
            [ containerPointToLatLng (mkPoint 6 6); containerPointToLatLng (mkPoint 6 6) ])
    by (vm_compute; reflexivity).
  split; [exact Hl |].
  rewrite Hl. intros Hnd. apply NoDup_cons in Hnd as [Hnotin _].
  apply Hnotin. apply list_elem_of_singleton. reflexivity.
Qed.

(** C3, amended, on that drag. *)
Lemma stroke_is_duplicate_free_by_identity_witness :
  fd_map (run Scenario.dragInputs (attach ArgOmitted)) = Some Scenario.dragged /\
  NoDup (ll_ref <$> latLngs Scenario.dragged).
Proof.
  split; [vm_compute; reflexivity |].
  apply (stroke_is_duplicate_free_by_identity ArgOmitted Scenario.dragInputs
           Scenario.dragged).
  vm_compute; reflexivity.
Defined.

(** C5 on the instance whose button is down. *)
Lemma cancel_idempotent_witness :
  fd_map Scenario.pressedInstance = Some Scenario.pressed /\
  capturing Scenario.pressed /\
  exists (fd' : FreeDraw) (m' : MapState),
    cancel Scenario.pressedInstance = Ok fd' /\
    cancel fd' = Ok fd' /\
    fd_map fd' = Some m' /\
    ~ capturing m' /\
    store m' = store Scenario.pressed /\
    notifications m' = notifications Scenario.pressed /\
    modes m' = modes Scenario.pressed.
Proof.
  split; [reflexivity |]. split; [vm_compute; reflexivity |].
  apply (proj2 (proj2 (proj2 cancel_idempotent)) Scenario.pressedInstance
           Scenario.pressed); [reflexivity | vm_compute; reflexivity].
Defined.

(** C6 fails on the code.  With [leaveModeAfterCreate], the application
    switches to EDIT while the button is down (CREATE is then unset); the
    mouse-up that completes the gesture XORs CREATE into the modes, and
    CREATE is set afterwards. *)
Lemma leave_mode_turns_create_back_on :
  truthy (prop (options Scenario.switched) "leaveModeAfterCreate") = true /\
  (exists m : MapState,
      fd_map Scenario.switched = Some m /\
      capturing m /\ modes m = EDIT /\ js_and (modes m) CREATE = 0) /\
  (exists m : MapState,
      fd_map Scenario.released = Some m /\
      ~ capturing m /\ modes m = Z.lor EDIT CREATE /\ js_and (modes m) CREATE <> 0).
Proof.
  split; [vm_compute; reflexivity |]. split.
  - eexists. split; [reflexivity |].
    split; [vm_compute; reflexivity |].
    split; vm_compute; reflexivity.
  - eexists. split; [reflexivity |].
    split; [vm_compute; discriminate |].
    split; [vm_compute; reflexivity |]. vm_compute. discriminate.
Qed.
End Runs.

(** ** Beyond the claims: wiring, moves, touch and the rest of the facade *)

Section Wired.
Context {F : Flags} {host : Host} {G : Geometry}.

Lemma elem_of_on (l l' : Listener) (m : MapState) :
  l' ∈ listeners (on l m) <-> l' = l \/ l' ∈ listeners m.
Proof.
  change (listeners (on l m)) with ({[ l ]} ∪ listeners m).
  rewrite elem_of_union, elem_of_singleton. tauto.
Qed.

Lemma elem_of_off (l l' : Listener) (m : MapState) :
  l' ∈ listeners (off l m) <-> l' ∈ listeners m /\ l' <> l.
Proof.
  change (listeners (off l m)) with (listeners m ∖ {[ l ]}).
  rewrite elem_of_difference, elem_of_singleton. tauto.
Qed.

Lemma listeners_set_cancelFn (v : option CancelFn) (m : MapState) :
  listeners (set_cancelFn v m) = listeners m.
Proof. reflexivity. Qed.

Lemma listeners_set_lineIterator (v : option LineIterator) (m : MapState) :
  listeners (set_lineIterator v m) = listeners m.
Proof. reflexivity. Qed.

Lemma listeners_set_latLngs (v : list LatLngObj) (m : MapState) :
  listeners (set_latLngs v m) = listeners m.
Proof. reflexivity. Qed.

Lemma wired_same (m m' : MapState) :
  listeners m' = listeners m -> cancelFn m' = cancelFn m ->
  lineIterator m' = lineIterator m -> wired m -> wired m'.
Proof.
  intros Hl Hc Hi [Hk Hd Hidle Harm].
  constructor; unfold capturing in *; rewrite ?Hc, ?Hl, ?Hi; assumption.
Qed.

Lemma wired_frame (m m' : MapState) : frame m m' -> wired m -> wired m'.
Proof. intros [Hc Hl _ _ _ Hi _ _]. by apply wired_same. Qed.

(** What an accepted press does. *)
Lemma mouseDown_accepted (o : Obj) (ev : Event) (m : MapState) :
  js_and (modes m) CREATE <> 0 ->
  ~ (clientX (client ev) = Some 0 /\ clientY (client ev) = Some 0) ->
  let m' := mouseDown o ev m in
  cancelFn m' = Some CancelMouseUp /\
  latLngs m' = [] /\
  lineIterator m' =
    Some (createPath
            (match latlng ev with
             | Some ll => latLngToContainerPoint ll
             | None => mouseEventToContainerPoint (client ev)
             end) (prop o "strokeWidth")) /\
  (forall l : Listener,
      l ∈ listeners m' <->
      l ∈ listeners m \/
      (touches ev = None /\
         (l = (OnMap, "mousemove", HMouseMove) \/ l = (OnMap, "mouseup", HMouseUp))) \/
      (bodyInDocument = true /\ l = (OnBody, "mouseleave", HMouseUp))) /\
  canvas m' = canvas m /\ store m' = store m /\ modes m' = modes m /\
  notifications m' = notifications m /\ nextRef m' = nextRef m.
Proof.
  intros Hgate Hpos m'. subst m'. unfold mouseDown.
  apply Z.eqb_neq in Hgate. rewrite Hgate.
  rewrite bool_decide_eq_false_2 by exact Hpos.
  destruct (touches ev) as [ts |] eqn:Ht, bodyInDocument eqn:Hb;
    (split; [reflexivity |]); (split; [reflexivity |]); (split; [reflexivity |]);
    (split; [| repeat split; reflexivity]);
    intros l;
    rewrite listeners_set_cancelFn, ?elem_of_on, !listeners_set_lineIterator,
      listeners_set_latLngs;
    intuition congruence.
Qed.

Lemma mouseDown_wired (o : Obj) (ev : Event) (m : MapState) :
  wired m -> wired (mouseDown o ev m).
Proof.
  intros Hw.
  destruct (decide (js_and (modes m) CREATE = 0)) as [Hg | Hg].
  { unfold mouseDown. apply Z.eqb_eq in Hg. rewrite Hg. exact Hw. }
  destruct (decide (clientX (client ev) = Some 0 /\ clientY (client ev) = Some 0))
    as [Hz | Hz].
  { unfold mouseDown. destruct (js_and (modes m) CREATE =? 0); [exact Hw |].
    rewrite bool_decide_eq_true_2 by exact Hz. exact Hw. }
  destruct (mouseDown_accepted o ev m Hg Hz) as (Hc & _ & Hi & Hl & _).
  destruct Hw as [Hk Hd Hidle Harm].
  constructor.
  - intros l Hin. apply Hl in Hin. destruct Hin as [Hin | [[_ Hin] | [Hb ->]]].
    + by apply Hk.
    + lists. tauto.
    + rewrite Hb. lists. tauto.
  - intros l Hin. apply Hl. left. by apply Hd.
  - rewrite Hc. discriminate.
  - intros _. split; [rewrite Hi; discriminate |].
    intros Hb. apply Hl. right. right. by split.
Qed.

Lemma point_eta (p : Point) : mkPoint (px p) (py p) = p.
Proof. by destruct p. Qed.

(** What a move does. *)
Lemma mouseMove_effect (o : Obj) (ev : Event) (m : MapState) :
  match pointerOf ev with
  | None => mouseMove o ev m = m
  | Some c =>
    let p := mouseEventToContainerPoint c in
    let m' := mouseMove o ev m in
    latLngs m' = set_add (mkLatLngObj (nextRef m) (containerPointToLatLng p)) (latLngs m) /\
    nextRef m' = S (nextRef m) /\
    match lineIterator m with
    | None => canvas m' = canvas m /\ lineIterator m' = None
    | Some it =>
      canvas m' =
        canvas m ++
          [mkSegment (lastPoint it) p
             (js_or (prop o "lineclass") (VStr "leaflet-line"))
             (js_or (prop o "fill") (VStr "none"))
             (js_or (prop o "fillOpacity") (num 1))
             (js_or (prop o "stroke") (VStr "black"))
             (strokeWidth it)] /\
      lineIterator m' = Some (mkLineIterator p (strokeWidth it))
    end /\
    listeners m' = listeners m /\ cancelFn m' = cancelFn m /\ store m' = store m /\
    modes m' = modes m /\ notifications m' = notifications m /\
    notifyDeferred m' = notifyDeferred m
  end.
Proof.
  unfold mouseMove. fold (pointerOf ev).
  destruct (pointerOf ev) as [c |]; [| reflexivity].
  cbv zeta.
  change (lineIterator
            (set_latLngs
               (set_add (mkLatLngObj (nextRef m)
                           (containerPointToLatLng (mouseEventToContainerPoint c)))
                  (latLngs (set_nextRef (S (nextRef m)) m)))
               (set_nextRef (S (nextRef m)) m)))
    with (lineIterator m).
  destruct (lineIterator m) as [it |] eqn:Hit.
  - unfold callLineIterator. rewrite point_eta. repeat split; reflexivity.
  - repeat split; try reflexivity. exact Hit.
Qed.

Lemma mouseMove_wired (o : Obj) (ev : Event) (m : MapState) :
  wired m -> wired (mouseMove o ev m).
Proof.
  intros Hw. pose proof (mouseMove_effect o ev m) as He.
  destruct (pointerOf ev) as [c |]; [| by rewrite He].
  cbv zeta in He. destruct He as (_ & _ & Hit & Hl & Hc & _).
  destruct Hw as [Hk Hd Hidle Harm].
  constructor; unfold capturing; rewrite ?Hl, ?Hc; try assumption.
  intros Hcap. destruct (Harm Hcap) as [Hsome Hb]. split; [| exact Hb].
  destruct (lineIterator m) as [it |]; [| done].
  destruct Hit as [_ ->]. discriminate.
Qed.

(** What a touch-start does once the CREATE gate is passed. *)
Lemma touchStart_unfold (o : Obj) (ev : Event) (m : MapState) :
  js_and (modes m) CREATE <> 0 ->
  touchStart o ev m =
    simulateEvent o "mousedown" ev
      (on (OnContainer, "touchend", HMouseUp) (on (OnContainer, "touchmove", HMouseMove) m)).
Proof.
  intros Hg. unfold touchStart. apply Z.eqb_neq in Hg. by rewrite Hg.
Qed.

Lemma touch_on_wired (m : MapState) :
  wired m ->
  wired (on (OnContainer, "touchend", HMouseUp) (on (OnContainer, "touchmove", HMouseMove) m)).
Proof.
  intros [Hk Hd Hidle Harm]. constructor.
  - intros l. rewrite !elem_of_on. intros [-> | [-> | Hin]]; [| | by apply Hk];
      lists; tauto.
  - intros l Hin. rewrite !elem_of_on. right. right. by apply Hd.
  - intros Hc l Hin. rewrite !elem_of_on. intros [-> | [-> | Hin']].
    + lists. destruct bodyInDocument; lists; intuition congruence.
    + lists. destruct bodyInDocument; lists; intuition congruence.
    + by apply (Hidle Hc l).
  - intros Hcap. destruct (Harm Hcap) as [Hsome Hb]. split; [exact Hsome |].
    intros Hbody. rewrite !elem_of_on. right. right. by apply Hb.
Qed.

Lemma touchStart_wired (o : Obj) (ev : Event) (m : MapState) :
  wired m -> wired (touchStart o ev m).
Proof.
  intros Hw.
  destruct (decide (js_and (modes m) CREATE = 0)) as [Hg | Hg].
  { unfold touchStart. apply Z.eqb_eq in Hg. rewrite Hg. exact Hw. }
  rewrite touchStart_unfold by exact Hg. unfold simulateEvent.
  case_decide; [apply mouseDown_wired |]; by apply touch_on_wired.
Qed.

Lemma tornDown_intro (ls : gset Listener) (l : Listener) :
  l ∈ ls ->
  l <> (OnMap, "mouseup", HMouseUp) ->
  l <> (OnMap, "mousemove", HMouseMove) ->
  l <> (OnContainer, "touchmove", HMouseMove) ->
  l <> (OnContainer, "touchend", HMouseUp) ->
  (bodyInDocument = true -> l <> (OnBody, "mouseleave", HMouseUp)) ->
  l ∈ tornDown ls.
Proof.
  intros. unfold tornDown. destruct bodyInDocument;
    rewrite !elem_of_difference, !elem_of_singleton; tauto.
Qed.

Lemma afterTeardown_wired (m : MapState) : wired m -> wired (afterTeardown m).
Proof.
  intros [Hk Hd Hidle Harm]. constructor.
  - intros l Hin. apply Hk.
    change (listeners (afterTeardown m)) with (tornDown (listeners m)) in Hin.
    by apply tornDown_elem in Hin as [Hin _].
  - intros l Hin.
    change (listeners (afterTeardown m)) with (tornDown (listeners m)).
    apply tornDown_intro; [by apply Hd | ..]; lists; intuition congruence.
  - intros _ l Hin Hin'.
    change (listeners (afterTeardown m)) with (tornDown (listeners m)) in Hin'.
    apply tornDown_elem in Hin' as (_ & H1 & H2 & _ & _ & H5).
    lists. destruct bodyInDocument; lists; intuition congruence.
  - intros Hcap. unfold capturing in Hcap.
    change (cancelFn (afterTeardown m)) with (Some CancelNoop) in Hcap. discriminate.
Qed.

Lemma mouseUp_wired (o : Obj) (ev : Event) (create : bool) (m : MapState) :
  wired m -> wired (mouseUp o ev create m).
Proof.
  intros Hw.
  destruct (decide (type ev = Some "pointercancel")) as [Hty | Hty].
  - unfold mouseUp. rewrite decide_True; [exact Hw | exact Hty].
  - apply (wired_frame (afterTeardown m)); [by apply mouseUp_frame |].
    by apply afterTeardown_wired.
Qed.

Lemma onRemove_wired (m : MapState) : wired m -> wired (onRemove m).
Proof.
  intros [Hk Hd Hidle Harm]. constructor.
  - intros l Hin. apply Hk. unfold onRemove in Hin.
    rewrite !elem_of_off in Hin. tauto.
  - intros l Hin. unfold onRemove. rewrite !elem_of_off.
    split; [split; [by apply Hd |] |]; lists; intuition congruence.
  - intros Hc. unfold onRemove in Hc. discriminate.
  - intros Hc. unfold capturing, onRemove in Hc. discriminate.
Qed.

Lemma super_remove_wired (m : MapState) : wired m -> wired (super_remove m).
Proof.
  intros Hw. unfold super_remove. case_match; [| exact Hw].
  apply (wired_same (onRemove m)); [reflexivity .. |]. by apply onRemove_wired.
Qed.

Lemma onAdd_wired (o : Obj) : wired (onAdd o).
Proof.
  unfold onAdd.
  set (m0 := mkMapState 0 (Some CancelNoop) None (Some []) ∅ [] false [] None [] 0%nat true
              true true).
  pose proof (modeFor_frame m0 (prop o "mode") o) as [Hc Hl _ _ _ Hi _ _].
  set (m1 := modeFor m0 (prop o "mode") o) in *.
  assert (Hl1 : forall l : Listener, l ∉ listeners m1).
  { intros l. rewrite Hl. apply not_elem_of_empty. }
  constructor.
  - intros l. rewrite !elem_of_on. intros [-> | [-> | Hin]];
      [lists; tauto | lists; tauto | by apply Hl1 in Hin].
  - intros l Hin. rewrite !elem_of_on. lists. tauto.
  - intros _ l Hin. rewrite !elem_of_on. intros [-> | [-> | Hin']].
    + lists. destruct bodyInDocument; lists; intuition congruence.
    + lists. destruct bodyInDocument; lists; intuition congruence.
    + by apply Hl1 in Hin'.
  - intros Hcap. unfold capturing in Hcap.
    change (cancelFn m1 = Some CancelMouseUp) in Hcap. rewrite Hc in Hcap. discriminate.
Qed.

Lemma runHandler_wired (o : Obj) (h : Handler) (ev : Event) (m : MapState) :
  wired m -> wired (runHandler o h ev m).
Proof.
  intros Hw. destruct h; simpl.
  - by apply mouseDown_wired.
  - by apply touchStart_wired.
  - by apply mouseMove_wired.
  - by apply mouseUp_wired.
Qed.

Lemma dispatch_wired (o : Obj) (tgt : Target) (name : string) (ev : Event) (m : MapState) :
  wired m -> wired (dispatch o tgt name ev m).
Proof.
  intros Hw. unfold dispatch.
  generalize (listeners m) as registered. intros registered.
  generalize [HMouseDown; HTouchStart; HMouseMove; HMouseUp] as hs. intros hs.
  revert m Hw. induction hs as [| h hs IH]; intros m Hw; simpl; [exact Hw |].
  apply IH. case_decide; [by apply runHandler_wired | exact Hw].
Qed.

Lemma step_wired (i : Input) (fd : FreeDraw) : instanceWired fd -> instanceWired (step i fd).
Proof.
  intros Hw. destruct fd as [o [m |]]; [| by destruct i].
  specialize (Hw m eq_refl).
  assert (Hsame : instanceWired (mkFreeDraw o (Some m))) by (by intros ? [= <-]).
  destruct i; unfold step, settle; simpl.
  - intros ? [= <-]. by apply dispatch_wired.
  - unfold cancel. simpl. destruct (cancelFn m) as [[] |]; try exact Hsame.
    intros ? [= <-]. by apply mouseUp_wired.
  - unfold mode. simpl. destruct (mode_on o arg m) as [m1 r] eqn:Hm. simpl.
    intros ? [= <-].
    replace m1 with (fst (mode_on o arg m)) by (by rewrite Hm).
    apply (wired_frame m); [apply mode_on_frame | exact Hw].
  - intros ? [= <-]. eapply wired_frame; [apply updateFor_frame |].
    case_match; [apply (wired_frame m); [apply removeFor_frame | exact Hw] |].
    by apply super_remove_wired.
  - intros ? [= <-]. eapply wired_frame; [apply updateFor_frame |].
    apply (wired_frame m); [apply clearFor_frame | exact Hw].
  - intros ? [= <-]. eapply wired_frame; [apply updateFor_frame |].
    apply (wired_frame m); [apply createFor_frame | exact Hw].
Qed.

Lemma run_wired (inputs : list Input) (fd : FreeDraw) :
  instanceWired fd -> instanceWired (run inputs fd).
Proof.
  revert fd. induction inputs as [| i inputs IH]; intros fd Hw; [done |].
  unfold run. simpl. apply IH. by apply step_wired.
Qed.

Lemma reachable_wired (arg : OptionsArg) (inputs : list Input) (m : MapState) :
  fd_map (run inputs (attach arg)) = Some m -> wired m.
Proof.
  apply (run_wired inputs (attach arg)). intros m0 [= <-]. apply onAdd_wired.
Qed.

(** *** Reachable states *)

(** X1. From [attach] on, whatever is delivered or called, nothing is ever
    registered but the two pointer-down listeners on the container, the move
    and up listeners on the map, the [mouseleave] listener on the body and the
    two touch listeners on the container; and the two pointer-down listeners
    stay registered throughout, [onRemove] included. *)
Theorem only_known_listeners (arg : OptionsArg) (inputs : list Input) (m : MapState) :
  fd_map (run inputs (attach arg)) = Some m ->
  (forall l : Listener, l ∈ listeners m ->
     l ∈ pointerDownListeners ++ mouseCaptureListeners bodyInDocument
           ++ touchCaptureListeners) /\
  (forall l : Listener, l ∈ pointerDownListeners -> l ∈ listeners m).
Proof.
  intros Hm. destruct (reachable_wired arg inputs m Hm) as [Hk Hd _ _]. by split.
Qed.

(** X2. From [attach] on, while the cancel hook is the empty function no
    mouse capture listener is registered: neither [mousemove] nor [mouseup] on
    the map, nor [mouseleave] on the body. *)
Theorem idle_has_no_mouse_capture_listener
    (arg : OptionsArg) (inputs : list Input) (m : MapState) :
  fd_map (run inputs (attach arg)) = Some m ->
  cancelFn m = Some CancelNoop ->
  ((OnMap, "mousemove", HMouseMove) ∉ listeners m) /\
  ((OnMap, "mouseup", HMouseUp) ∉ listeners m) /\
  ((OnBody, "mouseleave", HMouseUp) ∉ listeners m).
Proof.
  intros Hm Hc. destruct (reachable_wired arg inputs m Hm) as [Hk _ Hidle _].
  split; [apply (Hidle Hc); lists; tauto |].
  split; [apply (Hidle Hc); lists; tauto |].
  destruct bodyInDocument eqn:Hb.
  - apply (Hidle Hc). lists. tauto.
  - intros Hin. apply Hk in Hin. lists. intuition congruence.
Qed.

(** X3. From [attach] on, while [cancel] is armed the line iterator exists:
    a move whose position resolves appends exactly one path to the canvas,
    from the iterator's last point to the new point, with the stroke width of
    the press; and the [mouseleave] listener is on the body. *)
Theorem armed_move_draws_one_segment
    (arg : OptionsArg) (inputs : list Input) (m : MapState) (ev : Event) (c : ClientPos) :
  fd_map (run inputs (attach arg)) = Some m ->
  capturing m ->
  pointerOf ev = Some c ->
  exists (it : LineIterator) (path : Segment),
    lineIterator m = Some it /\
    canvas (mouseMove (constructor arg) ev m) = canvas m ++ [path] /\
    ends path = (lastPoint it, mouseEventToContainerPoint c) /\
    seg_stroke_width path = strokeWidth it /\
    (bodyInDocument = true -> (OnBody, "mouseleave", HMouseUp) ∈ listeners m).
Proof.
  intros Hm Hcap Hp. destruct (reachable_wired arg inputs m Hm) as [_ _ _ Harm].
  destruct (Harm Hcap) as [Hsome Hb].
  pose proof (mouseMove_effect (constructor arg) ev m) as He. rewrite Hp in He.
  cbv zeta in He. destruct He as (_ & _ & Hit & _).
  destruct (lineIterator m) as [it |]; [| done].
  destruct Hit as [Hcanvas _].
  eexists it, _. split; [reflexivity |]. split; [exact Hcanvas |]. by repeat split.
Qed.

(** X4. From [attach] on, [onRemove] unregisters nothing (its two [map.off]
    calls name listeners that were registered on the container, not on the
    map) and keeps the modes: on the removed layer a mouse-down that passes
    the CREATE gate, away from the origin, still arms a capture. *)
Theorem onRemove_keeps_listeners
    (arg : OptionsArg) (inputs : list Input) (m : MapState) (ev : Event) :
  fd_map (run inputs (attach arg)) = Some m ->
  listeners (onRemove m) = listeners m /\
  modes (onRemove m) = modes m /\
  (js_and (modes m) CREATE <> 0 ->
   ~ (clientX (client ev) = Some 0 /\ clientY (client ev) = Some 0) ->
   capturing (mouseDown (constructor arg) ev (onRemove m))).
Proof.
  intros Hm. destruct (reachable_wired arg inputs m Hm) as [Hk _ _ _].
  split; [| split; [reflexivity |]].
  - apply set_eq. intros l. unfold onRemove. rewrite !elem_of_off.
    split; [tauto |]. intros Hin. split; [split; [exact Hin |] |];
      intros ->; apply Hk in Hin; lists; destruct bodyInDocument; lists;
      intuition congruence.
  - intros Hg Hz.
    by destruct (mouseDown_accepted (constructor arg) ev (onRemove m) Hg Hz) as [Hc _].
Qed.

(** *** The facade on a removed or never added instance *)

(** X5. After [onRemove], [cancel], [size] and [all] throw (the cancel hook
    and the store entry are deleted) while [mode()] still answers with the
    modes; on an instance never added to a map all four throw. *)
Theorem removed_instance_throws (o : Obj) (m : MapState) :
  let removed := mkFreeDraw o (Some (onRemove m)) in
  let fresh := mkFreeDraw o None in
  cancel removed = TypeError /\ size removed = TypeError /\ all removed = TypeError /\
  mode VUndefined removed = Ok (removed, modes m) /\
  cancel fresh = TypeError /\ size fresh = TypeError /\ all fresh = TypeError /\
  mode VUndefined fresh = TypeError.
Proof. repeat split; reflexivity. Qed.

(** [size] and [all] stand or fall together, and [size] is the length
    of what [all] returns. *)
Theorem size_is_length_of_all (fd : FreeDraw) :
  match size fd, all fd with
  | Ok n, Ok ps => n = length ps
  | TypeError, TypeError => True
  | _, _ => False
  end.
Proof.
  unfold size, all. destruct (fd_map fd) as [m |]; [| done].
  by destruct (store m).
Qed.

(** *** What the pointer handlers leave alone *)

Lemma mouseDown_quiet (o : Obj) (ev : Event) (m : MapState) :
  store (mouseDown o ev m) = store m /\ modes (mouseDown o ev m) = modes m /\
  notifications (mouseDown o ev m) = notifications m /\
  notifyDeferred (mouseDown o ev m) = notifyDeferred m /\
  canvas (mouseDown o ev m) = canvas m /\ nextRef (mouseDown o ev m) = nextRef m.
Proof.
  unfold mouseDown. case_match; [done |]. case_match; [done |].
  destruct (touches ev), bodyInDocument; repeat split; reflexivity.
Qed.

Lemma touchStart_quiet (o : Obj) (ev : Event) (m : MapState) :
  store (touchStart o ev m) = store m /\ modes (touchStart o ev m) = modes m /\
  notifications (touchStart o ev m) = notifications m /\
  notifyDeferred (touchStart o ev m) = notifyDeferred m /\
  canvas (touchStart o ev m) = canvas m /\ nextRef (touchStart o ev m) = nextRef m.
Proof.
  unfold touchStart. case_match; [done |]. unfold simulateEvent.
  case_decide; [| repeat split; reflexivity].
  match goal with |- context [mouseDown o ?e ?x] =>
    destruct (mouseDown_quiet o e x) as (-> & -> & -> & -> & -> & ->) end.
  repeat split; reflexivity.
Qed.

(** X6. [mouseDown], [touchStart] and [mouseMove] never touch the store, the
    modes or the notifications; [mouseMove] touches neither the listeners nor
    the cancel hook. *)
Theorem pointer_handlers_leave_store_alone (o : Obj) (ev : Event) (m : MapState) :
  (store (mouseDown o ev m) = store m /\ modes (mouseDown o ev m) = modes m /\
   notifications (mouseDown o ev m) = notifications m) /\
  (store (touchStart o ev m) = store m /\ modes (touchStart o ev m) = modes m /\
   notifications (touchStart o ev m) = notifications m) /\
  (store (mouseMove o ev m) = store m /\ modes (mouseMove o ev m) = modes m /\
   notifications (mouseMove o ev m) = notifications m /\
   listeners (mouseMove o ev m) = listeners m /\
   cancelFn (mouseMove o ev m) = cancelFn m).
Proof.
  split; [| split].
  - destruct (mouseDown_quiet o ev m) as (? & ? & ? & _). by repeat split.
  - destruct (touchStart_quiet o ev m) as (? & ? & ? & _). by repeat split.
  - pose proof (mouseMove_effect o ev m) as He.
    destruct (pointerOf ev) as [c |]; [| by rewrite He].
    cbv zeta in He. destruct He as (_ & _ & _ & ? & ? & ? & ? & ? & _).
    by repeat split.
Qed.

(** *** Touch-start *)

Lemma touchStart_at_origin_starts_no_capture_aux (o : Obj) (ev : Event) (m : MapState) :
  js_and (modes m) CREATE <> 0 ->
  default 0 (clientX (client ev)) = 0 ->
  default 0 (clientY (client ev)) = 0 ->
  touchStart o ev m =
    on (OnContainer, "touchend", HMouseUp) (on (OnContainer, "touchmove", HMouseMove) m).
Proof.
  intros Hg Hx Hy.
  rewrite touchStart_unfold by exact Hg. unfold simulateEvent.
  case_decide; [| reflexivity].
  unfold mouseDown. case_match; [reflexivity |].
  rewrite bool_decide_eq_true_2; [reflexivity |].
  cbn [client clientX clientY]. by rewrite Hx, Hy.
Qed.

(** X7. A touch-start in CREATE mode whose event has no client position of
    its own (or the origin) registers the two touch listeners and nothing
    else: the mouse-down it synthesises has client coordinates (0, 0) and is
    ignored, so the cancel hook, the stroke and the line iterator stay as they
    were. *)
Theorem touchStart_at_origin_starts_no_capture (o : Obj) (ev : Event) (m : MapState) :
  js_and (modes m) CREATE <> 0 ->
  default 0 (clientX (client ev)) = 0 ->
  default 0 (clientY (client ev)) = 0 ->
  touchStart o ev m =
    on (OnContainer, "touchend", HMouseUp) (on (OnContainer, "touchmove", HMouseMove) m) /\
  (OnContainer, "touchmove", HMouseMove) ∈ listeners (touchStart o ev m) /\
  (OnContainer, "touchend", HMouseUp) ∈ listeners (touchStart o ev m) /\
  cancelFn (touchStart o ev m) = cancelFn m /\
  latLngs (touchStart o ev m) = latLngs m /\
  lineIterator (touchStart o ev m) = lineIterator m.
Proof.
  intros Hg Hx Hy.
  pose proof (touchStart_at_origin_starts_no_capture_aux o ev m Hg Hx Hy) as Heq.
  rewrite Heq. split; [reflexivity |].
  split; [rewrite !elem_of_on; tauto |]. split; [rewrite !elem_of_on; tauto |].
  repeat split; reflexivity.
Qed.



(** *** A whole gesture *)

Lemma mouseDown_listeners (o : Obj) (ev : Event) (m : MapState) (l : Listener) :
  (l ∈ listeners m -> l ∈ listeners (mouseDown o ev m)) /\
  (l ∈ listeners (mouseDown o ev m) ->
   l ∈ listeners m \/ l ∈ mouseCaptureListeners bodyInDocument).
Proof.
  destruct (decide (js_and (modes m) CREATE = 0)) as [Hg | Hg].
  { unfold mouseDown. apply Z.eqb_eq in Hg. rewrite Hg. tauto. }
  destruct (decide (clientX (client ev) = Some 0 /\ clientY (client ev) = Some 0))
    as [Hz | Hz].
  { unfold mouseDown. destruct (js_and (modes m) CREATE =? 0); [tauto |].
    rewrite bool_decide_eq_true_2 by exact Hz. tauto. }
  destruct (mouseDown_accepted o ev m Hg Hz) as (_ & _ & _ & Hl & _).
  rewrite Hl. split; [tauto |].
  intros [Hin | [[_ Hin] | [Hb ->]]]; [tauto | right; lists; tauto |].
  right. rewrite Hb. lists. tauto.
Qed.

Lemma touchStart_listeners (o : Obj) (ev : Event) (m : MapState) (l : Listener) :
  (l ∈ listeners m -> l ∈ listeners (touchStart o ev m)) /\
  (l ∈ listeners (touchStart o ev m) ->
   l ∈ listeners m \/ l ∈ mouseCaptureListeners bodyInDocument ++ touchCaptureListeners).
Proof.
  destruct (decide (js_and (modes m) CREATE = 0)) as [Hg | Hg].
  { unfold touchStart. apply Z.eqb_eq in Hg. rewrite Hg. tauto. }
  rewrite touchStart_unfold by exact Hg. unfold simulateEvent.
  assert (Hon : forall x : Listener,
    x ∈ listeners (on (OnContainer, "touchend", HMouseUp)
                     (on (OnContainer, "touchmove", HMouseMove) m)) <->
    x ∈ listeners m \/ x ∈ touchCaptureListeners).
  { intros x. rewrite !elem_of_on. lists. tauto. }
  case_decide.
  - match goal with |- context [mouseDown o ?e ?x] =>
      destruct (mouseDown_listeners o e x l) as [Hup Hdn] end.
    split.
    + intros Hin. apply Hup, Hon. by left.
    + intros Hin. apply Hdn in Hin. rewrite Hon in Hin. rewrite elem_of_app. tauto.
  - rewrite Hon, elem_of_app. tauto.
Qed.

Lemma mouseUp_listeners (o : Obj) (ev : Event) (create : bool) (m : MapState) :
  type ev <> Some "pointercancel" ->
  listeners (mouseUp o ev create m) = tornDown (listeners m).
Proof.
  intros Hty. by rewrite (frame_listeners _ _ (mouseUp_frame o ev create m Hty)).
Qed.

(** X9. A gesture leaves no listener behind: from a state with no capture
    listener registered, a press ([mouseDown] or [touchStart], accepted or
    not) followed by a [mouseUp] on any event but a [pointercancel] gives back
    the listeners of before. *)
Theorem gesture_restores_listeners
    (o : Obj) (down up : Event) (create : bool) (m : MapState) :
  (forall l : Listener,
      l ∈ mouseCaptureListeners bodyInDocument ++ touchCaptureListeners ->
      l ∉ listeners m) ->
  type up <> Some "pointercancel" ->
  listeners (mouseUp o up create (mouseDown o down m)) = listeners m /\
  listeners (mouseUp o up create (touchStart o down m)) = listeners m.
Proof.
  intros Hfree Hty.
  assert (Hback : forall m1 : MapState,
    (forall l : Listener,
        (l ∈ listeners m -> l ∈ listeners m1) /\
        (l ∈ listeners m1 ->
         l ∈ listeners m \/
         l ∈ mouseCaptureListeners bodyInDocument ++ touchCaptureListeners)) ->
    listeners (mouseUp o up create m1) = listeners m).
  { intros m1 Hm1. rewrite mouseUp_listeners by exact Hty.
    apply set_eq. intros l. destruct (Hm1 l) as [Hup Hdn]. split.
    - intros Hin. apply tornDown_elem in Hin as (Hin & H1 & H2 & H3 & H4 & H5).
      apply Hdn in Hin as [Hin | Hin]; [exact Hin |].
      lists. destruct bodyInDocument; lists; intuition congruence.
    - intros Hin.
      assert (Hnot : ~ l ∈ mouseCaptureListeners bodyInDocument ++ touchCaptureListeners)
        by (intros Hcap; by apply (Hfree l Hcap)).
      apply tornDown_intro; [by apply Hup | ..];
        try (intros ->; apply Hnot; lists; destruct bodyInDocument; lists; tauto).
      intros Hb ->. apply Hnot. rewrite Hb. lists. tauto. }
  split; apply Hback; intros l.
  - destruct (mouseDown_listeners o down m l) as [Hup Hdn]. split; [exact Hup |].
    intros Hin. apply Hdn in Hin. rewrite elem_of_app. tauto.
  - apply touchStart_listeners.
Qed.

(** *** A run of moves *)

Lemma moves_snoc (o : Obj) (evs : list Event) (ev : Event) (m : MapState) :
  moves o (evs ++ [ev]) m = mouseMove o ev (moves o evs m).
Proof. unfold moves. by rewrite foldl_app. Qed.

Lemma moves_cons (o : Obj) (evs : list Event) (ev : Event) (m : MapState) :
  moves o (ev :: evs) m = moves o evs (mouseMove o ev m).
Proof. reflexivity. Qed.

Lemma set_add_new (n : nat) (p : LatLng) (s : list LatLngObj) :
  Forall (fun o => (ll_ref o < n)%nat) s ->
  set_add (mkLatLngObj n p) s = s ++ [mkLatLngObj n p].
Proof.
  intros Hlt. unfold set_add. rewrite decide_False; [done |].
  cbn [ll_ref]. rewrite list_elem_of_fmap. intros (x & Hx & Hin).
  rewrite Forall_forall in Hlt. apply Hlt in Hin. lia.
Qed.

Lemma moves_record (o : Obj) (evs : list Event) (cs : list ClientPos) (m : MapState) :
  strokeWf m ->
  Forall2 (fun ev c => pointerOf ev = Some c) evs cs ->
  ll_pos <$> latLngs (moves o evs m) =
    (ll_pos <$> latLngs m)
      ++ ((fun c => containerPointToLatLng (mouseEventToContainerPoint c)) <$> cs).
Proof.
  intros Hwf Hall. revert m Hwf.
  induction Hall as [| ev c evs cs Hp Hall IH]; intros m Hwf.
  - by rewrite app_nil_r.
  - rewrite moves_cons, IH by (by apply mouseMove_wf).
    pose proof (mouseMove_effect o ev m) as He. rewrite Hp in He. cbv zeta in He.
    destruct He as (Hl & _). rewrite Hl.
    destruct Hwf as [_ Hlt]. rewrite set_add_new by exact Hlt.
    rewrite fmap_app, <- app_assoc. reflexivity.
Qed.

(** X10. From [attach] on, every move whose position resolves is recorded:
    a run of moves appends, in order, the converted position of each move to
    the stroke, repeated positions included, so the stroke grows by the number
    of moves. *)
Theorem moves_record_every_point
    (arg : OptionsArg) (inputs : list Input) (m : MapState)
    (evs : list Event) (cs : list ClientPos) :
  fd_map (run inputs (attach arg)) = Some m ->
  Forall2 (fun ev c => pointerOf ev = Some c) evs cs ->
  ll_pos <$> latLngs (moves (constructor arg) evs m) =
    (ll_pos <$> latLngs m)
      ++ ((fun c => containerPointToLatLng (mouseEventToContainerPoint c)) <$> cs) /\
  length (latLngs (moves (constructor arg) evs m)) = (length (latLngs m) + length evs)%nat.
Proof.
  intros Hm Hall.
  assert (Hwf : strokeWf m).
  { apply (run_wf inputs (attach arg)); [| exact Hm]. intros m0 [= <-]. apply onAdd_wf. }
  pose proof (moves_record (constructor arg) evs cs m Hwf Hall) as Hrec.
  split; [exact Hrec |].
  apply (f_equal length) in Hrec.
  rewrite length_app, !length_fmap in Hrec. rewrite Hrec.
  by rewrite (Forall2_length _ _ _ Hall).
Qed.

Lemma last_cons_default {A : Type} (a d : A) (l : list A) :
  List.last (a :: l) d = List.last l a.
Proof.
  revert a d. induction l as [| b l IH]; intros a d; [reflexivity |].
  change (List.last (a :: b :: l) d) with (List.last (b :: l) d).
  by rewrite !IH.
Qed.

(** X11. With a line iterator in place, a run of moves whose positions
    resolve draws a connected polyline: the new paths go from the iterator's
    last point through the positions of the moves, in order, and the iterator
    ends at the last of them with its stroke width unchanged. *)
Theorem moves_draw_a_polyline
    (o : Obj) (evs : list Event) (cs : list ClientPos) (m : MapState) (it : LineIterator) :
  lineIterator m = Some it ->
  Forall2 (fun ev c => pointerOf ev = Some c) evs cs ->
  let pts := mouseEventToContainerPoint <$> cs in
  ends <$> canvas (moves o evs m) = (ends <$> canvas m) ++ polyline (lastPoint it) pts /\
  lineIterator (moves o evs m) =
    Some (mkLineIterator (List.last pts (lastPoint it)) (strokeWidth it)).
Proof.
  intros Hit Hall. cbv zeta. revert m it Hit.
  induction Hall as [| ev c evs cs Hp Hall IH]; intros m it Hit.
  - simpl. rewrite app_nil_r. split; [reflexivity |]. rewrite Hit. by destruct it.
  - pose proof (mouseMove_effect o ev m) as He. rewrite Hp, Hit in He. cbv zeta in He.
    destruct He as (_ & _ & [Hcv Hit'] & _).
    rewrite moves_cons.
    destruct (IH _ _ Hit') as [IHc IHi]. cbn [lastPoint strokeWidth] in IHc, IHi.
    rewrite IHc, IHi, Hcv, fmap_app, <- app_assoc. split; [reflexivity |].
    by rewrite fmap_cons, last_cons_default.
Qed.

(** X12. Without a line iterator (no press accepted yet), moves draw
    nothing and create no iterator, whatever the events. *)
Theorem moves_before_any_press_draw_nothing (o : Obj) (evs : list Event) (m : MapState) :
  lineIterator m = None ->
  canvas (moves o evs m) = canvas m /\ lineIterator (moves o evs m) = None.
Proof.
  revert m. induction evs as [| ev evs IH]; intros m Hit; [by split |].
  rewrite moves_cons.
  pose proof (mouseMove_effect o ev m) as He.
  destruct (pointerOf ev) as [c |].
  - cbv zeta in He. rewrite Hit in He. destruct He as (_ & _ & [Hcv Hit'] & _).
    destruct (IH _ Hit') as [-> ->]. by split.
  - rewrite He. by apply IH.
Qed.

(** *** Options *)

(** X13. [create] hands [createFor] the instance options overridden by its
    [options] argument; with no argument that is [{ concavePolygon: false }],
    so [concavePolygon] is false whatever the instance says and every other
    option is the instance's. *)
Theorem create_options_merge :
  (forall (fd : FreeDraw) (k : string),
      createOptions fd None !! k =
        if decide (k = "concavePolygon") then Some (VBool false) else options fd !! k) /\
  (forall (fd : FreeDraw) (opts : Obj) (k : string),
      createOptions fd (Some opts) !! k =
        match opts !! k with
        | Some v => Some v
        | None => options fd !! k
        end) /\
  (forall (latLngs : list LatLng) (opts : option Obj) (fd : FreeDraw) (m : MapState),
      fd_map fd = Some m ->
      create latLngs opts fd =
        Ok (mkFreeDraw (options fd)
              (Some (updateFor (createFor m latLngs (createOptions fd opts)) "create")))).
Proof.
  split; [| split].
  - intros fd k. unfold createOptions, spread, default. cbn [from_option id]. rewrite lookup_union.
    case_decide as Hk.
    + subst k. rewrite lookup_singleton_eq. by destruct (options fd !! "concavePolygon").
    + rewrite lookup_singleton_ne by congruence. by destruct (options fd !! k).
  - intros fd opts k. unfold createOptions, spread, default. cbn [from_option id]. rewrite lookup_union.
    by destruct (opts !! k), (options fd !! k).
  - intros latLngs opts fd m Hm. unfold create. by rewrite Hm.
Qed.

(** X14. Edge cases of the constructor: [null] gives the same options as no
    argument; building an instance from the options of another gives the same
    options; a property passed as [undefined] overrides its default (it reads
    back [undefined]); a property the defaults do not have is what the caller
    passed. *)
Theorem constructor_edge_cases :
  constructor ArgNull = constructor ArgOmitted /\
  (forall arg : OptionsArg, constructor (ArgObj (constructor arg)) = constructor arg) /\
  (forall (o : Obj) (k : string),
      o !! k = Some VUndefined -> prop (constructor (ArgObj o)) k = VUndefined) /\
  (forall (o : Obj) (k : string),
      defaultOptions !! k = None -> constructor (ArgObj o) !! k = o !! k).
Proof.
  assert (Hidem : forall a : Obj, spread defaultOptions (spread defaultOptions a)
                                  = spread defaultOptions a).
  { intros a. unfold spread. apply map_eq. intros k. rewrite !lookup_union.
    by destruct (a !! k), (defaultOptions !! k). }
  split; [| split; [| split]].
  - unfold constructor, spread. apply map_eq. intros k. rewrite !lookup_union.
    rewrite lookup_empty. by destruct (defaultOptions !! k).
  - intros arg. unfold constructor at 1. cbv zeta. apply Hidem.
  - intros o k Hk. unfold prop, constructor, spread. rewrite lookup_union, Hk.
    by destruct (defaultOptions !! k).
  - intros o k Hk. unfold constructor, spread. rewrite lookup_union, Hk.
    by destruct (o !! k).
Qed.

(** *** The finished stroke *)

(** X15. [mouseUp] leaves the stroke and the line iterator in place.  From
    [attach] on, if a touch-start whose synthesised mouse-down is ignored
    follows (CREATE still set), the moves of that touch are appended to the
    points of the finished stroke. *)
Theorem finished_stroke_is_kept
    (arg : OptionsArg) (inputs : list Input) (m : MapState)
    (up touch : Event) (create : bool) (evs : list Event) (cs : list ClientPos) :
  fd_map (run inputs (attach arg)) = Some m ->
  js_and (modes (mouseUp (constructor arg) up create m)) CREATE <> 0 ->
  default 0 (clientX (client touch)) = 0 ->
  default 0 (clientY (client touch)) = 0 ->
  Forall2 (fun ev c => pointerOf ev = Some c) evs cs ->
  let o := constructor arg in
  latLngs (mouseUp o up create m) = latLngs m /\
  lineIterator (mouseUp o up create m) = lineIterator m /\
  ll_pos <$> latLngs (moves o evs (touchStart o touch (mouseUp o up create m))) =
    (ll_pos <$> latLngs m)
      ++ ((fun c => containerPointToLatLng (mouseEventToContainerPoint c)) <$> cs).
Proof.
  intros Hm Hg Hx Hy Hall o. subst o.
  assert (Hwf : strokeWf m).
  { apply (run_wf inputs (attach arg)); [| exact Hm]. intros m0 [= <-]. apply onAdd_wf. }
  set (o := constructor arg) in *.
  assert (Hkeep : latLngs (mouseUp o up create m) = latLngs m /\
                  lineIterator (mouseUp o up create m) = lineIterator m).
  { destruct (decide (type up = Some "pointercancel")) as [Hty | Hty].
    - unfold mouseUp. by rewrite decide_True.
    - pose proof (mouseUp_frame o up create m Hty) as [_ _ _ _ Hl Hi _ _].
      rewrite Hl, Hi. by split. }
  destruct Hkeep as [Hl Hi]. split; [exact Hl |]. split; [exact Hi |].
  rewrite (moves_record o evs cs) by (by try apply touchStart_wf, mouseUp_wf).
  rewrite (touchStart_at_origin_starts_no_capture_aux o touch (mouseUp o up create m)
             Hg Hx Hy).
  change (latLngs (on (OnContainer, "touchend", HMouseUp)
                     (on (OnContainer, "touchmove", HMouseMove) (mouseUp o up create m))))
    with (latLngs (mouseUp o up create m)).
  by rewrite Hl.
Qed.

(** *** Deliveries *)

(** X16. From [attach] on, a [mousedown] delivered at the container runs
    [mouseDown] and nothing else, and a [touchstart] runs [touchStart] and
    nothing else. *)
Theorem pointer_down_reaches_one_handler
    (arg : OptionsArg) (inputs : list Input) (m : MapState) (ev : Event) :
  fd_map (run inputs (attach arg)) = Some m ->
  dispatch (constructor arg) OnContainer "mousedown" ev m = mouseDown (constructor arg) ev m /\
  dispatch (constructor arg) OnContainer "touchstart" ev m
    = touchStart (constructor arg) ev m.
Proof.
  intros Hm. destruct (reachable_wired arg inputs m Hm) as [Hk Hd _ _].
  assert (Hno : forall l : Listener,
    l ∉ pointerDownListeners ++ mouseCaptureListeners bodyInDocument
          ++ touchCaptureListeners -> l ∉ listeners m)
    by (intros l Hl Hin; by apply Hl, Hk).
  unfold dispatch. cbn [foldl runHandler].
  split.
  - rewrite (decide_True (P := (OnContainer, "mousedown", HMouseDown) ∈ listeners m))
      by (apply Hd; lists; tauto).
    rewrite !decide_False; [reflexivity | ..]; apply Hno;
      lists; destruct bodyInDocument; lists; intuition congruence.
  - rewrite (decide_True (P := (OnContainer, "touchstart", HTouchStart) ∈ listeners m))
      by (apply Hd; lists; tauto).
    rewrite !decide_False; [reflexivity | ..]; apply Hno;
      lists; destruct bodyInDocument; lists; intuition congruence.
Qed.

(** X17. Right after [attach] the store is empty ([size] is 0, [all] is
    the empty list), no capture is under way, nothing is drawn or notified,
    and the listeners are exactly the two pointer-down listeners. *)
Theorem attach_starts_empty_and_idle (arg : OptionsArg) :
  size (attach arg) = Ok 0%nat /\
  all (attach arg) = Ok [] /\
  exists m : MapState,
    fd_map (attach arg) = Some m /\
    cancelFn m = Some CancelNoop /\
    latLngs m = [] /\ lineIterator m = None /\ canvas m = [] /\
    notifications m = [] /\
    (forall l : Listener, l ∈ listeners m <-> l ∈ pointerDownListeners).
Proof.
  set (o := constructor arg).
  set (m0 := mkMapState 0 (Some CancelNoop) None (Some []) ∅ [] false [] None [] 0%nat true
              true true).
  pose proof (modeFor_frame m0 (prop o "mode") o) as [Hc Hl Hcv _ Hll Hi _ _].
  pose proof (modeFor_store m0 (prop o "mode") o) as Hs.
  pose proof (modeFor_notifications m0 (prop o "mode") o) as (rest & Hn & Hrest).
  assert (Hstore : store (onAdd o) = Some []) by exact Hs.
  split; [unfold size, attach; cbn [fd_map]; fold o; by rewrite Hstore |].
  split; [unfold all, attach; cbn [fd_map]; fold o; by rewrite Hstore |].
  exists (onAdd o). split; [reflexivity |].
  split; [exact Hc |]. split; [exact Hll |]. split; [exact Hi |]. split; [exact Hcv |].
  split.
  - change (notifications (onAdd o)) with (notifications (modeFor m0 (prop o "mode") o)).
    rewrite Hn, (Hrest eq_refl). reflexivity.
  - intros l. unfold onAdd. fold m0. rewrite !elem_of_on.
    change (listeners (set_svgInDom true (modeFor m0 (prop o "mode") o)))
      with (listeners (modeFor m0 (prop o "mode") o)).
    rewrite Hl. change (listeners m0) with (∅ : gset Listener).
    rewrite elem_of_empty. lists. tauto.
Qed.
End Wired.



Section MoreRuns.
#[local] Existing Instance bitFlags.
#[local] Existing Instance gridHost.
#[local] Existing Instance plainGeometry.

(** X1 on the drag of the scenario. *)
Lemma only_known_listeners_witness :
  fd_map (run Scenario.dragInputs (attach ArgOmitted)) = Some Scenario.dragged /\
  (forall l : Listener, l ∈ pointerDownListeners -> l ∈ listeners Scenario.dragged).
Proof.
  split; [vm_compute; reflexivity |].
  apply (only_known_listeners ArgOmitted Scenario.dragInputs Scenario.dragged).
  vm_compute; reflexivity.
Defined.

(** X2 on the instance just attached. *)
Lemma idle_has_no_mouse_capture_listener_witness :
  fd_map (run [] (attach ArgOmitted)) = Some Scenario.idle /\
  cancelFn Scenario.idle = Some CancelNoop /\
  ((OnMap, "mousemove", HMouseMove) ∉ listeners Scenario.idle).
Proof.
  split; [vm_compute; reflexivity |]. split; [vm_compute; reflexivity |].
  apply (idle_has_no_mouse_capture_listener ArgOmitted [] Scenario.idle);
    vm_compute; reflexivity.
Defined.

(** X3 on the instance whose button is down. *)
Lemma armed_move_draws_one_segment_witness :
  fd_map (run Probe.pressInputs (attach ArgOmitted)) = Some Scenario.pressed /\
  capturing Scenario.pressed /\
  pointerOf (mouseAt "mousemove" 6 6) = Some (mkClientPos (Some 6) (Some 6)) /\
  exists (it : LineIterator) (path : Segment),
    lineIterator Scenario.pressed = Some it /\
    canvas (mouseMove (constructor ArgOmitted) (mouseAt "mousemove" 6 6) Scenario.pressed)
      = canvas Scenario.pressed ++ [path] /\
    ends path = (lastPoint it, mouseEventToContainerPoint (mkClientPos (Some 6) (Some 6))) /\
    seg_stroke_width path = strokeWidth it /\
    (bodyInDocument = true -> (OnBody, "mouseleave", HMouseUp) ∈ listeners Scenario.pressed).
Proof.
  split; [vm_compute; reflexivity |]. split; [vm_compute; reflexivity |].
  split; [reflexivity |].
  apply (armed_move_draws_one_segment ArgOmitted Probe.pressInputs Scenario.pressed);
    [vm_compute; reflexivity | vm_compute; reflexivity | reflexivity].
Defined.

(** X4 on the instance just attached. *)
Lemma onRemove_keeps_listeners_witness :
  fd_map (run [] (attach ArgOmitted)) = Some Scenario.idle /\
  listeners (onRemove Scenario.idle) = listeners Scenario.idle.
Proof.
  split; [vm_compute; reflexivity |].
  apply (onRemove_keeps_listeners ArgOmitted [] Scenario.idle emptyEvent).
  vm_compute; reflexivity.
Defined.

(** X7 on a browser touch event. *)
Lemma touchStart_at_origin_starts_no_capture_witness :
  js_and (modes Scenario.idle) CREATE <> 0 /\
  default 0 (clientX (client Probe.touchEvent)) = 0 /\
  default 0 (clientY (client Probe.touchEvent)) = 0 /\
  cancelFn (touchStart Scenario.plain Probe.touchEvent Scenario.idle)
    = cancelFn Scenario.idle.
Proof.
  split; [vm_compute; discriminate |]. split; [reflexivity |]. split; [reflexivity |].
  apply (touchStart_at_origin_starts_no_capture Scenario.plain Probe.touchEvent
           Scenario.idle); [vm_compute; discriminate | reflexivity | reflexivity].
Defined.


(** The instance just attached has no capture listener. *)
Lemma idle_is_free_of_capture_listeners (l : Listener) :
  l ∈ mouseCaptureListeners bodyInDocument ++ touchCaptureListeners ->
  l ∉ listeners Scenario.idle.
Proof.
  unfold mouseCaptureListeners, touchCaptureListeners. cbn [bodyInDocument gridHost].
  rewrite !elem_of_app, !elem_of_cons, !elem_of_nil.
  intros [[[-> | [-> | []]] | [-> | []]] | [-> | [-> | []]]];
    apply (bool_decide_unpack _); vm_compute; exact I.
Defined.

(** X9 on a press and release. *)
Lemma gesture_restores_listeners_witness :
  type (mouseAt "mouseup" 5 5) <> Some "pointercancel" /\
  listeners (mouseUp Scenario.plain (mouseAt "mouseup" 5 5) true
               (mouseDown Scenario.plain (mouseAt "mousedown" 5 5) Scenario.idle))
    = listeners Scenario.idle.
Proof.
  split; [discriminate |].
  refine (proj1 (gesture_restores_listeners Scenario.plain (mouseAt "mousedown" 5 5)
                   (mouseAt "mouseup" 5 5) true Scenario.idle
                   idle_is_free_of_capture_listeners _)).
  discriminate.
Defined.

(** X10 on two moves after the press. *)
Lemma moves_record_every_point_witness :
  fd_map (run Probe.pressInputs (attach ArgOmitted)) = Some Scenario.pressed /\
  Forall2 (fun ev c => pointerOf ev = Some c) Probe.dragEvents Probe.dragPositions /\
  length (latLngs (moves (constructor ArgOmitted) Probe.dragEvents Scenario.pressed))
    = (length (latLngs Scenario.pressed) + length Probe.dragEvents)%nat.
Proof.
  assert (Hall : Forall2 (fun ev c => pointerOf ev = Some c)
                   Probe.dragEvents Probe.dragPositions)
    by (repeat constructor).
  split; [vm_compute; reflexivity |]. split; [exact Hall |].
  apply (moves_record_every_point ArgOmitted Probe.pressInputs Scenario.pressed
           Probe.dragEvents Probe.dragPositions); [vm_compute; reflexivity | exact Hall].
Defined.

(** X11 on two moves after the press. *)
Lemma moves_draw_a_polyline_witness :
  lineIterator Scenario.pressed = Some (mkLineIterator (mkPoint 5 5) (num 2)) /\
  ends <$> canvas (moves Scenario.plain Probe.dragEvents Scenario.pressed) =
    (ends <$> canvas Scenario.pressed)
      ++ polyline (mkPoint 5 5) (mouseEventToContainerPoint <$> Probe.dragPositions).
Proof.
  split; [vm_compute; reflexivity |].
  apply (moves_draw_a_polyline Scenario.plain Probe.dragEvents Probe.dragPositions
           Scenario.pressed (mkLineIterator (mkPoint 5 5) (num 2)));
    [vm_compute; reflexivity | repeat constructor].
Defined.

(** X12 on the instance just attached. *)
Lemma moves_before_any_press_draw_nothing_witness :
  lineIterator Scenario.idle = None /\
  canvas (moves Scenario.plain Probe.dragEvents Scenario.idle) = canvas Scenario.idle.
Proof.
  split; [reflexivity |].
  apply (moves_before_any_press_draw_nothing Scenario.plain Probe.dragEvents Scenario.idle).
  reflexivity.
Defined.

(** X13 on the instance just attached. *)
Lemma create_options_merge_witness :
  fd_map (attach ArgOmitted) = Some (onAdd (constructor ArgOmitted)) /\
  create [] None (attach ArgOmitted) =
    Ok (mkFreeDraw (options (attach ArgOmitted))
          (Some (updateFor
                   (createFor (onAdd (constructor ArgOmitted)) []
                      (createOptions (attach ArgOmitted) None)) "create"))).
Proof.
  split; [reflexivity |].
  apply (proj2 (proj2 create_options_merge) [] None (attach ArgOmitted)
           (onAdd (constructor ArgOmitted))).
  reflexivity.
Defined.

(** X15 on the drag of the scenario, released. *)
Lemma finished_stroke_is_kept_witness :
  fd_map (run Scenario.dragInputs (attach ArgOmitted)) = Some Scenario.dragged /\
  js_and (modes (mouseUp (constructor ArgOmitted) (mouseAt "mouseup" 6 6) true
                   Scenario.dragged)) CREATE <> 0 /\
  latLngs (mouseUp (constructor ArgOmitted) (mouseAt "mouseup" 6 6) true Scenario.dragged)
    = latLngs Scenario.dragged.
Proof.
  split; [vm_compute; reflexivity |]. split; [vm_compute; discriminate |].
  refine (proj1 (finished_stroke_is_kept ArgOmitted Scenario.dragInputs Scenario.dragged
                   (mouseAt "mouseup" 6 6) Probe.touchEvent true Probe.dragEvents
                   Probe.dragPositions _ _ _ _ _));
    [vm_compute; reflexivity | vm_compute; discriminate | reflexivity | reflexivity
    | repeat constructor].
Defined.

(** X16 on the instance just attached. *)
Lemma pointer_down_reaches_one_handler_witness :
  fd_map (run [] (attach ArgOmitted)) = Some Scenario.idle /\
  dispatch (constructor ArgOmitted) OnContainer "mousedown" (mouseAt "mousedown" 5 5)
    Scenario.idle
  = mouseDown (constructor ArgOmitted) (mouseAt "mousedown" 5 5) Scenario.idle.
Proof.
  split; [vm_compute; reflexivity |].
  refine (proj1 (pointer_down_reaches_one_handler ArgOmitted [] Scenario.idle
                   (mouseAt "mousedown" 5 5) _)).
  vm_compute; reflexivity.
Defined.

End MoreRuns.
